(** * Zoe Academy Paystack backend: payment reconciliation

    A shallow embedding of the two HTTP handlers of the repository, in
    their serverless form (api/initialize-payment.js,
    api/paystack-webhook.js with utils/paystack.js) and in their Express
    form (the server file with app.post('/api/initialize-payment'),
    app.post('/api/paystack-webhook') and processWebhookEvent), together
    with the properties of the reconciliation state machine.

    Conventions.
    - A JavaScript string is a Rocq [string]: the sequence of the bytes
      of its UTF-8 encoding.
    - A JavaScript number is an integer [Z]; fractional numbers are not
      modelled.
    - Handlers run in a state and exception monad over the registrations
      table, the transaction opened on the checked-out client and the
      trace of the effects performed so far. *)

From Stdlib Require Import ZArith List String Ascii Bool Lia.
From Stdlib Require Import DecimalString.
Import ListNotations.
Open Scope Z_scope.

(** ** SHA-512 and HMAC (node's crypto.createHmac('sha512', key))

    The digest is the library's, not the repository's; it is written out
    from FIPS 180-4 and RFC 2104 so that signatures can be computed on
    concrete requests. *)

Module Sha512.

Definition mask64 : Z := Z.ones 64.

Definition add64 (a b : Z) : Z := Z.land (a + b) mask64.

Definition rotr (n x : Z) : Z :=
  Z.land (Z.lor (Z.shiftr x n) (Z.shiftl x (64 - n))) mask64.

Definition Ch (x y z : Z) : Z :=
  Z.lxor (Z.land x y) (Z.land (Z.lxor x mask64) z).

Definition Maj (x y z : Z) : Z :=
  Z.lxor (Z.lxor (Z.land x y) (Z.land x z)) (Z.land y z).

Definition Sigma0 (x : Z) : Z := Z.lxor (Z.lxor (rotr 28 x) (rotr 34 x)) (rotr 39 x).
Definition Sigma1 (x : Z) : Z := Z.lxor (Z.lxor (rotr 14 x) (rotr 18 x)) (rotr 41 x).
Definition sigma0 (x : Z) : Z := Z.lxor (Z.lxor (rotr 1 x) (rotr 8 x)) (Z.shiftr x 7).
Definition sigma1 (x : Z) : Z := Z.lxor (Z.lxor (rotr 19 x) (rotr 61 x)) (Z.shiftr x 6).

Definition K : list Z := [
    0x428a2f98d728ae22; 0x7137449123ef65cd; 0xb5c0fbcfec4d3b2f; 0xe9b5dba58189dbbc;
    0x3956c25bf348b538; 0x59f111f1b605d019; 0x923f82a4af194f9b; 0xab1c5ed5da6d8118;
    0xd807aa98a3030242; 0x12835b0145706fbe; 0x243185be4ee4b28c; 0x550c7dc3d5ffb4e2;
    0x72be5d74f27b896f; 0x80deb1fe3b1696b1; 0x9bdc06a725c71235; 0xc19bf174cf692694;
    0xe49b69c19ef14ad2; 0xefbe4786384f25e3; 0x0fc19dc68b8cd5b5; 0x240ca1cc77ac9c65;
    0x2de92c6f592b0275; 0x4a7484aa6ea6e483; 0x5cb0a9dcbd41fbd4; 0x76f988da831153b5;
    0x983e5152ee66dfab; 0xa831c66d2db43210; 0xb00327c898fb213f; 0xbf597fc7beef0ee4;
    0xc6e00bf33da88fc2; 0xd5a79147930aa725; 0x06ca6351e003826f; 0x142929670a0e6e70;
    0x27b70a8546d22ffc; 0x2e1b21385c26c926; 0x4d2c6dfc5ac42aed; 0x53380d139d95b3df;
    0x650a73548baf63de; 0x766a0abb3c77b2a8; 0x81c2c92e47edaee6; 0x92722c851482353b;
    0xa2bfe8a14cf10364; 0xa81a664bbc423001; 0xc24b8b70d0f89791; 0xc76c51a30654be30;
    0xd192e819d6ef5218; 0xd69906245565a910; 0xf40e35855771202a; 0x106aa07032bbd1b8;
    0x19a4c116b8d2d0c8; 0x1e376c085141ab53; 0x2748774cdf8eeb99; 0x34b0bcb5e19b48a8;
    0x391c0cb3c5c95a63; 0x4ed8aa4ae3418acb; 0x5b9cca4f7763e373; 0x682e6ff3d6b2b8a3;
    0x748f82ee5defb2fc; 0x78a5636f43172f60; 0x84c87814a1f0ab72; 0x8cc702081a6439ec;
    0x90befffa23631e28; 0xa4506cebde82bde9; 0xbef9a3f7b2c67915; 0xc67178f2e372532b;
    0xca273eceea26619c; 0xd186b8c721c0c207; 0xeada7dd6cde0eb1e; 0xf57d4f7fee6ed178;
    0x06f067aa72176fba; 0x0a637dc5a2c898a6; 0x113f9804bef90dae; 0x1b710b35131c471b;
    0x28db77f523047d84; 0x32caab7b40c72493; 0x3c9ebe0a15c9bebc; 0x431d67c49c100d4c;
    0x4cc5d4becb3e42b6; 0x597f299cfc657e2a; 0x5fcb6fab3ad6faec; 0x6c44198c4a475817 ].

Definition H0 : list Z := [ 0x6a09e667f3bcc908; 0xbb67ae8584caa73b; 0x3c6ef372fe94f82b; 0xa54ff53a5f1d36f1; 0x510e527fade682d1; 0x9b05688c2b3e6c1f; 0x1f83d9abfb41bd6b; 0x5be0cd19137e2179 ].

(** Big-endian packing of bytes into a number, and back. *)
Definition be_word (bs : list Z) : Z :=
  fold_left (fun acc b => Z.lor (Z.shiftl acc 8) b) bs 0.

Fixpoint be_bytes (n : nat) (x : Z) : list Z :=
  match n with
  | O => []
  | S m => be_bytes m (Z.shiftr x 8) ++ [Z.land x 255]
  end.

(** The message followed by 0x80, zero bytes up to 112 modulo 128, and
    the bit length on 16 bytes. *)
Definition pad (msg : list Z) : list Z :=
  let len := Z.of_nat (List.length msg) in
  let zeros := Z.to_nat ((111 - len) mod 128) in
  msg ++ [128] ++ repeat 0 zeros ++ be_bytes 16 (8 * len).

Fixpoint chunks (fuel size : nat) (l : list Z) : list (list Z) :=
  match fuel with
  | O => []
  | S f =>
      match l with
      | [] => []
      | _ => firstn size l :: chunks f size (skipn size l)
      end
  end.

Definition block_words (block : list Z) : list Z :=
  map be_word (chunks 16 8 block).

Record regs : Type := Regs
  { ra : Z; rb : Z; rc : Z; rd : Z; re : Z; rf : Z; rg : Z; rh : Z }.

Definition regs_of_list (l : list Z) : regs :=
  Regs (nth 0 l 0) (nth 1 l 0) (nth 2 l 0) (nth 3 l 0)
       (nth 4 l 0) (nth 5 l 0) (nth 6 l 0) (nth 7 l 0).

Definition list_of_regs (r : regs) : list Z :=
  [ra r; rb r; rc r; rd r; re r; rf r; rg r; rh r].

(** One round.  [win] holds the sixteen schedule words W(t) .. W(t+15);
    the round consumes W(t) and appends W(t+16). *)
Definition round (st : regs * list Z) (k : Z) : regs * list Z :=
  let '(r, win) := st in
  let w := nth 0 win 0 in
  let t1 := add64 (add64 (add64 (add64 (rh r) (Sigma1 (re r))) (Ch (re r) (rf r) (rg r))) k) w in
  let t2 := add64 (Sigma0 (ra r)) (Maj (ra r) (rb r) (rc r)) in
  let w16 := add64 (add64 (add64 (sigma1 (nth 14 win 0)) (nth 9 win 0))
                          (sigma0 (nth 1 win 0))) w in
  (Regs (add64 t1 t2) (ra r) (rb r) (rc r) (add64 (rd r) t1) (re r) (rf r) (rg r),
   tl win ++ [w16]).

Definition compress (h : list Z) (block : list Z) : list Z :=
  let '(r, _) := fold_left round K (regs_of_list h, block_words block) in
  map (fun p => add64 (fst p) (snd p)) (combine h (list_of_regs r)).

Definition digest (msg : list Z) : list Z :=
  let padded := pad msg in
  let h := fold_left compress (chunks (List.length padded) 128 padded) H0 in
  flat_map (be_bytes 8) h.

Definition block_size : nat := 128.

Definition hmac (key msg : list Z) : list Z :=
  let k0 := if (Nat.ltb block_size (List.length key)) then digest key else key in
  let k := k0 ++ repeat 0 (block_size - List.length k0)%nat in
  let ipad := map (fun b => Z.lxor b 54) k in
  let opad := map (fun b => Z.lxor b 92) k in
  digest (opad ++ digest (ipad ++ msg)).

End Sha512.

Open Scope string_scope.

Definition bytes_of_string (s : string) : list Z :=
  map (fun c => Z.of_nat (nat_of_ascii c)) (list_ascii_of_string s).

Definition hex_digit (n : Z) : ascii :=
  nth (Z.to_nat n) (list_ascii_of_string "0123456789abcdef") "0"%char.

Definition hex_of_bytes (bs : list Z) : string :=
  string_of_list_ascii
    (flat_map (fun b => [hex_digit (Z.shiftr b 4); hex_digit (Z.land b 15)]) bs).

(** crypto.createHmac('sha512', key).update(msg).digest('hex') *)
Definition hmac_sha512_hex (key msg : string) : string :=
  hex_of_bytes (Sha512.hmac (bytes_of_string key) (bytes_of_string msg)).

Definition sha512_hex (msg : string) : string :=
  hex_of_bytes (Sha512.digest (bytes_of_string msg)).



(** ** JavaScript values

    Request bodies, provider responses and the values read out of them.
    An object is the list of its own properties in insertion order. *)

#[local] Set Warnings "-register-all".

Inductive value : Type :=
| VUndef
| VNull
| VBool (b : bool)
| VNum (n : Z)
| VStr (s : string)
| VArr (items : list value)
| VObj (fields : list (string * value)).

Definition dquote : string := String "034"%char EmptyString.
Definition backslash : string := String "092"%char EmptyString.

Definition string_of_Z (n : Z) : string := NilZero.string_of_int (Z.to_int n).

Fixpoint join (sep : string) (l : list string) : string :=
  match l with
  | [] => ""
  | [x] => x
  | x :: rest => x ++ sep ++ join sep rest
  end.

(** Truthiness: [!v] is [negb (truthy v)]. *)
Definition truthy (v : value) : bool :=
  match v with
  | VUndef | VNull => false
  | VBool b => b
  | VNum n => negb (n =? 0)%Z
  | VStr s => negb (s =? "")%string
  | VArr _ | VObj _ => true
  end.

(** [a === b].  Two objects (or arrays) are equal only when they are the
    same object; the operands compared in this program come out of two
    different JSON documents, so they never are. *)
Definition strict_eq (a b : value) : bool :=
  match a, b with
  | VUndef, VUndef => true
  | VNull, VNull => true
  | VBool x, VBool y => Bool.eqb x y
  | VNum x, VNum y => (x =? y)%Z
  | VStr x, VStr y => (x =? y)%string
  | _, _ => false
  end.

Fixpoint lookup (k : string) (fields : list (string * value)) : option value :=
  match fields with
  | [] => None
  | (k', v) :: rest => if (k' =? k)%string then Some v else lookup k rest
  end.

(** [v.k]: a TypeError ([None]) on undefined and null, the own property
    of an object, and undefined otherwise (none of the property names
    this program reads is defined on a primitive's or an array's
    prototype). *)
Definition get_prop (v : value) (k : string) : option value :=
  match v with
  | VUndef | VNull => None
  | VObj fields =>
      match lookup k fields with
      | Some x => Some x
      | None => Some VUndef
      end
  | _ => Some VUndef
  end.

(** *** JSON.stringify *)

Definition hex4 (n : Z) : string :=
  hex_of_bytes [0; n].

Definition quote_char (c : ascii) : string :=
  let n := Z.of_nat (nat_of_ascii c) in
  if (n =? 34)%Z then backslash ++ dquote
  else if (n =? 92)%Z then backslash ++ backslash
  else if (n =? 8)%Z then backslash ++ "b"
  else if (n =? 12)%Z then backslash ++ "f"
  else if (n =? 10)%Z then backslash ++ "n"
  else if (n =? 13)%Z then backslash ++ "r"
  else if (n =? 9)%Z then backslash ++ "t"
  else if (n <? 32)%Z then backslash ++ "u" ++ hex4 n
  else String c EmptyString.

Fixpoint quote_body (s : string) : string :=
  match s with
  | EmptyString => ""
  | String c rest => quote_char c ++ quote_body rest
  end.

Definition quote (s : string) : string := dquote ++ quote_body s ++ dquote.

(** [None] is the JavaScript value undefined, which JSON.stringify
    returns for undefined itself.  Inside an array undefined prints as
    null; a property whose value is undefined is left out. *)
Fixpoint JSON_stringify (v : value) : option string :=
  match v with
  | VUndef => None
  | VNull => Some "null"
  | VBool true => Some "true"
  | VBool false => Some "false"
  | VNum n => Some (string_of_Z n)
  | VStr s => Some (quote s)
  | VArr items =>
      Some ("[" ++ join ","
                    (map (fun x => match JSON_stringify x with
                                   | Some s => s
                                   | None => "null"
                                   end) items) ++ "]")
  | VObj fields =>
      Some ("{" ++ join ","
                    (flat_map (fun kv => match JSON_stringify (snd kv) with
                                         | Some s => [quote (fst kv) ++ ":" ++ s]
                                         | None => []
                                         end) fields) ++ "}")
  end.

(** *** String conversion, as in a template literal *)

Fixpoint to_string (v : value) : string :=
  match v with
  | VUndef => "undefined"
  | VNull => "null"
  | VBool true => "true"
  | VBool false => "false"
  | VNum n => string_of_Z n
  | VStr s => s
  | VArr items =>
      join "," (map (fun x => match x with
                              | VUndef | VNull => ""
                              | _ => to_string x
                              end) items)
  | VObj _ => "[object Object]"
  end.


(** *** JSON.parse, as the framework's body parser applies it

    Covers the documents this development needs: objects, arrays,
    strings with the two-character escapes, integers, literals and white
    space.  A document outside this fragment (a fraction, an exponent, a
    \u escape) has no parse here. *)

Fixpoint skip_ws (s : list ascii) : list ascii :=
  match s with
  | c :: rest =>
      if (Ascii.eqb c " " || Ascii.eqb c "009" || Ascii.eqb c "010" || Ascii.eqb c "013")%bool
      then skip_ws rest else s
  | [] => []
  end.

Definition digit_of (c : ascii) : option Z :=
  let n := Z.of_nat (nat_of_ascii c) in
  if ((48 <=? n) && (n <=? 57))%bool%Z then Some (n - 48) else None.

Fixpoint parse_digits (s : list ascii) (acc : Z) : Z * list ascii :=
  match s with
  | c :: rest =>
      match digit_of c with
      | Some d => parse_digits rest (10 * acc + d)
      | None => (acc, s)
      end
  | [] => (acc, [])
  end.

(** An integer without a leading zero and with no fraction or exponent
    after it. *)
Definition parse_nat (s : list ascii) : option (Z * list ascii) :=
  match s with
  | c :: rest =>
      match digit_of c with
      | Some d =>
          let '(n, rest') := if (d =? 0)%Z then (0, rest) else parse_digits rest d in
          match rest' with
          | c' :: _ =>
              if (Ascii.eqb c' "." || Ascii.eqb c' "e" || Ascii.eqb c' "E")%bool then None
              else match digit_of c' with Some _ => None | None => Some (n, rest') end
          | [] => Some (n, rest')
          end
      | None => None
      end
  | [] => None
  end.

(** The characters of a string up to its closing quote. *)
Fixpoint parse_chars (s : list ascii) (acc : list ascii) : option (string * list ascii) :=
  match s with
  | [] => None
  | c :: rest =>
      if Ascii.eqb c "034" then Some (string_of_list_ascii (rev acc), rest)
      else if Ascii.eqb c "092" then
        match rest with
        | e :: rest' =>
            let unescaped :=
              if Ascii.eqb e "034" then Some "034"%char
              else if Ascii.eqb e "092" then Some "092"%char
              else if Ascii.eqb e "/" then Some "/"%char
              else if Ascii.eqb e "b" then Some "008"%char
              else if Ascii.eqb e "f" then Some "012"%char
              else if Ascii.eqb e "n" then Some "010"%char
              else if Ascii.eqb e "r" then Some "013"%char
              else if Ascii.eqb e "t" then Some "009"%char
              else None in
            match unescaped with
            | Some u => parse_chars rest' (u :: acc)
            | None => None
            end
        | [] => None
        end
      else if (Z.of_nat (nat_of_ascii c) <? 32)%Z then None
      else parse_chars rest (c :: acc)
  end.

(** Assigning a property: a key already present keeps its place and
    takes the new value. *)
Fixpoint obj_set (k : string) (v : value) (fields : list (string * value))
  : list (string * value) :=
  match fields with
  | [] => [(k, v)]
  | (k', v') :: rest =>
      if (k' =? k)%string then (k', v) :: rest else (k', v') :: obj_set k v rest
  end.

Fixpoint parse_value (fuel : nat) (s : list ascii) {struct fuel}
  : option (value * list ascii) :=
  match fuel with
  | O => None
  | S f =>
      match skip_ws s with
      | "n" :: "u" :: "l" :: "l" :: rest => Some (VNull, rest)
      | "t" :: "r" :: "u" :: "e" :: rest => Some (VBool true, rest)
      | "f" :: "a" :: "l" :: "s" :: "e" :: rest => Some (VBool false, rest)
      | "[" :: rest =>
          match skip_ws rest with
          | "]" :: rest' => Some (VArr [], rest')
          | _ => parse_elements f rest []
          end
      | "{" :: rest =>
          match skip_ws rest with
          | "}" :: rest' => Some (VObj [], rest')
          | _ => parse_members f rest []
          end
      | "-" :: rest =>
          match parse_nat rest with
          | Some (n, rest') => Some (VNum (- n), rest')
          | None => None
          end
      | c :: rest =>
          if Ascii.eqb c "034" then
            match parse_chars rest [] with
            | Some (str, rest') => Some (VStr str, rest')
            | None => None
            end
          else
            match parse_nat (c :: rest) with
            | Some (n, rest') => Some (VNum n, rest')
            | None => None
            end
      | [] => None
      end
  end%char

with parse_elements (fuel : nat) (s : list ascii) (acc : list value) {struct fuel}
  : option (value * list ascii) :=
  match fuel with
  | O => None
  | S f =>
      match parse_value f s with
      | Some (v, rest) =>
          match skip_ws rest with
          | "," :: rest' => parse_elements f rest' (acc ++ [v])%list
          | "]" :: rest' => Some (VArr (acc ++ [v])%list, rest')
          | _ => None
          end
      | None => None
      end
  end%char

with parse_members (fuel : nat) (s : list ascii) (acc : list (string * value)) {struct fuel}
  : option (value * list ascii) :=
  match fuel with
  | O => None
  | S f =>
      match skip_ws s with
      | q :: rest =>
          if Ascii.eqb q "034" then
            match parse_chars rest [] with
            | Some (k, rest1) =>
                match skip_ws rest1 with
                | ":" :: rest2 =>
                    match parse_value f rest2 with
                    | Some (v, rest3) =>
                        match skip_ws rest3 with
                        | "," :: rest4 => parse_members f rest4 (obj_set k v acc)
                        | "}" :: rest4 => Some (VObj (obj_set k v acc), rest4)
                        | _ => None
                        end
                    | None => None
                    end
                | _ => None
                end
            | None => None
            end
          else None
      | [] => None
      end
  end%char.

Definition JSON_parse (s : string) : option value :=
  let l := list_ascii_of_string s in
  match parse_value (2 * List.length l + 2) l with
  | Some (v, rest) =>
      match skip_ws rest with
      | [] => Some v
      | _ => None
      end
  | None => None
  end.


(** ** The registrations table

    One record per row, with the columns the statements of the handlers
    name.  The table is the list of its rows; no statement of the program
    depends on the order. *)

Record registration : Type := mkRegistration
  { email : string;
    full_name : string;
    amount_paid : Z;
    cohort : string;
    status : string;
    payment_ref : option string;
    created_at : nat;
    updated_at : nat }.

Definition store : Type := list registration.

(** A statement parameter as the database receives it: a text, or NULL. *)
Definition sql_param : Type := option string.

(** [column = $n]: NULL equals nothing. *)
Definition sql_eq (column : string) (p : sql_param) : bool :=
  match p with
  | Some t => (column =? t)%string
  | None => false
  end.

(** SELECT email, status FROM registrations WHERE email = $1 *)
Definition select_by_email (p_email : sql_param) (s : store) : list registration :=
  filter (fun r => sql_eq (email r) p_email) s.

(** UPDATE registrations SET full_name = $1, amount_paid = $2,
    status = $3, updated_at = NOW() WHERE email = $4 *)
Definition update_registration (now : nat) (p_full_name : string) (p_amount : Z)
           (p_status : string) (p_email : sql_param) (s : store) : store :=
  map (fun r =>
         if sql_eq (email r) p_email
         then mkRegistration (email r) p_full_name p_amount (cohort r) p_status
                             (payment_ref r) (created_at r) now
         else r) s.

(** Modelled from the spec: the table's definition is not among the
    sources; a column the INSERT does not name takes its default, which
    is NULL for payment_ref and the current time for created_at and
    updated_at.

    INSERT INTO registrations (email, full_name, amount_paid, cohort,
    status) VALUES ($1, $2, $3, $4, $5) *)
Definition insert_registration (now : nat) (p_email p_full_name : string) (p_amount : Z)
           (p_cohort p_status : string) (s : store) : store :=
  (s ++ [mkRegistration p_email p_full_name p_amount p_cohort p_status None now now])%list.

(** UPDATE registrations SET payment_ref = $1, status = $2,
    updated_at = NOW() WHERE email = $3: the statement of the webhook
    handlers, the store's markPaid. *)
Definition markPaid (now : nat) (p_ref : sql_param) (p_status : string)
           (p_email : sql_param) (s : store) : store :=
  map (fun r =>
         if sql_eq (email r) p_email
         then mkRegistration (email r) (full_name r) (amount_paid r) (cohort r) p_status
                             p_ref (created_at r) now
         else r) s.

(** The rows an UPDATE touches (the statement's row count). *)
Definition rows_matching (p_email : sql_param) (s : store) : nat :=
  List.length (select_by_email p_email s).

Definition findByEmail (e : string) (s : store) : option registration :=
  hd_error (select_by_email (Some e) s).

(** How the database driver renders a JavaScript parameter (the driver's
    prepareValue): undefined and null are NULL, an object is its JSON
    text, an array is an array literal, anything else its string. *)
Definition escapeElement (t : string) : string :=
  let fix go (s : string) : string :=
    match s with
    | EmptyString => ""
    | String c rest =>
        (if Ascii.eqb c "092" then backslash ++ backslash
         else if Ascii.eqb c "034" then backslash ++ dquote
         else String c EmptyString) ++ go rest
    end in
  dquote ++ go t ++ dquote.

Fixpoint arrayString (v : value) : string :=
  match v with
  | VArr items =>
      "{" ++ join "," (map (fun x => match x with
                                     | VUndef | VNull => "NULL"
                                     | VArr _ => arrayString x
                                     | VObj _ =>
                                         escapeElement
                                           (match JSON_stringify x with Some t => t | None => "" end)
                                     | _ => escapeElement (to_string x)
                                     end) items) ++ "}"
  | _ => ""
  end.

Definition prepareValue (v : value) : sql_param :=
  match v with
  | VUndef | VNull => None
  | VObj _ => JSON_stringify v
  | VArr _ => Some (arrayString v)
  | _ => Some (to_string v)
  end.

(** ** Effects *)

Inductive error : Type :=
| TypeError (message : string)
(** A rejected HTTP call: the body of the provider's error response when
    there was one, and the error's message. *)
| AxiosError (response_data : option value) (message : string)
| DbError (message : string).

Inductive result (A : Type) : Type :=
| Ok (a : A)
| Throw (e : error).
Arguments Ok {A} a.
Arguments Throw {A} e.

Inductive db_op : Type :=
| Connect | Begin | Select | Update | Insert | Commit | Rollback | RollbackOnError.

Inductive event : Type :=
| SetHeader (name val : string)
| Respond (code : Z) (body : value)
| Log (level message : string)
| Query (op : db_op)
| Release
| HttpGet (url authorization : string)
| HttpPost (url : string) (payload : value) (authorization : string)
(** Two marks with no effect of their own: the outcome of the signature
    comparison, and the test of the event type. *)
| SignatureChecked (ok : bool)
| EventFiltered (charge_success : bool).

(** What a handler is run against: the configuration, the clock, which
    database calls fail, and what the provider answers. *)
Record env : Type := mkEnv
  { PAYSTACK_SECRET_KEY : option string;
    NOW : nat;
    db_fails : db_op -> bool;
    axios_get : string -> string -> result value;
    axios_post : string -> value -> string -> result value }.

(** The committed table, the working copy of the transaction open on the
    checked-out client, whether a client is checked out, and the effects
    so far. *)
Record world : Type := mkWorld
  { table : store;
    tx : option store;
    client : bool;
    trace : list event }.

Definition M (A : Type) : Type := world -> result A * world.

Definition ret {A} (a : A) : M A := fun w => (Ok a, w).

Definition bind {A B} (m : M A) (k : A -> M B) : M B :=
  fun w => match m w with
           | (Ok a, w') => k a w'
           | (Throw e, w') => (Throw e, w')
           end.

Notation "x <- m ;; k" := (bind m (fun x => k))
  (at level 61, m at next level, right associativity).
Notation "m ;; k" := (bind m (fun _ => k))
  (at level 61, right associativity).

Definition throw {A} (e : error) : M A := fun w => (Throw e, w).

Definition try_catch {A} (body : M A) (handler : error -> M A) : M A :=
  fun w => match body w with
           | (Ok a, w') => (Ok a, w')
           | (Throw e, w') => handler e w'
           end.

(** try { body } finally { fin }: [fin] runs on both exits. *)
Definition try_finally {A} (body : M A) (fin : M unit) : M A :=
  fun w => match body w with
           | (r, w') =>
               match fin w' with
               | (Ok _, w'') => (r, w'')
               | (Throw e, w'') => (Throw e, w'')
               end
           end.

Definition emit (e : event) : M unit :=
  fun w => (Ok tt, mkWorld (table w) (tx w) (client w) (trace w ++ [e])%list).

Definition log (level message : string) : M unit := emit (Log level message).

Definition respond (code : Z) (body : value) : M unit := emit (Respond code body).

Definition get (v : value) (k : string) : M value :=
  match get_prop v k with
  | Some x => ret x
  | None => throw (TypeError ("Cannot read properties of " ++ to_string v ++ " (reading '" ++ k ++ "')"))
  end.

(** The rows a statement sees and writes: those of the open transaction,
    or the committed table when none is open. *)
Definition view (w : world) : store :=
  match tx w with
  | Some t => t
  | None => table w
  end.

Definition set_view (s : store) (w : world) : world :=
  match tx w with
  | Some _ => mkWorld (table w) (Some s) (client w) (trace w)
  | None => mkWorld s None (client w) (trace w)
  end.

(** A call to the database: recorded, then failing (with no effect) or
    taking effect. *)
Definition db_call {A} (E : env) (op : db_op) (effect : world -> A * world) : M A :=
  fun w =>
    let w1 := mkWorld (table w) (tx w) (client w) (trace w ++ [Query op])%list in
    if db_fails E op then (Throw (DbError "database call failed"), w1)
    else let '(a, w2) := effect w1 in (Ok a, w2).

(** pool.connect() *)
Definition pool_connect (E : env) : M unit :=
  db_call E Connect (fun w => (tt, mkWorld (table w) (tx w) true (trace w))).

(** client.query('BEGIN'), 'COMMIT', 'ROLLBACK' *)
Definition query_begin (E : env) : M unit :=
  db_call E Begin (fun w => (tt, mkWorld (table w) (Some (table w)) (client w) (trace w))).

Definition query_commit (E : env) : M unit :=
  db_call E Commit (fun w => (tt, mkWorld (view w) None (client w) (trace w))).

Definition query_rollback (E : env) (op : db_op) : M unit :=
  db_call E op (fun w => (tt, mkWorld (table w) None (client w) (trace w))).

Definition query_select (E : env) (p_email : sql_param) : M (list registration) :=
  db_call E Select (fun w => (select_by_email p_email (view w), w)).

Definition query_write (E : env) (op : db_op) (f : store -> store) : M unit :=
  db_call E op (fun w => (tt, set_view (f (view w)) w)).

(** client.release(): the client goes back to the pool.  Nothing is sent
    to the database: a transaction that was neither committed nor rolled
    back stays open on the connection. *)
Definition client_release : M unit :=
  fun w => (Ok tt, mkWorld (table w) (tx w) false (trace w ++ [Release])%list).

Definition release_if_client : M unit :=
  fun w => if client w then client_release w else (Ok tt, w).

(** ** Requests *)

(** The body of an initialization request, [{email, amount, fullName}]:
    each field is absent or has the type the frontend posts (two strings
    and an integral amount in the major currency unit). *)
Record init_body : Type := mkInitBody
  { b_email : option string;
    b_amount : option Z;
    b_fullName : option string }.

Record init_request : Type := mkInitRequest
  { i_method : string;
    i_body : init_body }.

(** A webhook request: the bytes the provider sent, and what the
    framework hands to the handler (the parsed body, the headers). *)
Record webhook_request : Type := mkWebhookRequest
  { method : string;
    headers : list (string * string);
    rawBody : string;
    body : value }.

Fixpoint header (name : string) (hs : list (string * string)) : option string :=
  match hs with
  | [] => None
  | (n, v) :: rest => if (n =? name)%string then Some v else header name rest
  end.

(** [!s] for a string that may be undefined. *)
Definition missing_string (s : option string) : bool :=
  match s with
  | None => true
  | Some t => (t =? "")%string
  end.

(** [!n] for a number that may be undefined. *)
Definition missing_number (n : option Z) : bool :=
  match n with
  | None => true
  | Some z => (z =? 0)%Z
  end.

(** [error.response ? error.response.data : error.message] *)
Definition error_detail (e : error) : value :=
  match e with
  | AxiosError (Some data) _ => data
  | AxiosError None message => VStr message
  | TypeError message => VStr message
  | DbError message => VStr message
  end.

Definition message_body (m : string) : value := VObj [("message", VStr m)].

(** ** The provider gateway (utils/paystack.js) *)

Definition verify_url (transactionRef : value) : string :=
  "https://api.paystack.co/transaction/verify/" ++ to_string transactionRef.

Definition initialize_url : string := "https://api.paystack.co/transaction/initialize".

Definition bearer (secretKey : string) : string := "Bearer " ++ secretKey.

Definition http_get (E : env) (url authorization : string) : M value :=
  fun w =>
    let w1 := mkWorld (table w) (tx w) (client w) (trace w ++ [HttpGet url authorization])%list in
    (axios_get E url authorization, w1).

Definition http_post (E : env) (url : string) (payload : value) (authorization : string)
  : M value :=
  fun w =>
    let w1 := mkWorld (table w) (tx w) (client w)
                      (trace w ++ [HttpPost url payload authorization])%list in
    (axios_post E url payload authorization, w1).

(** The test both webhook handlers apply to the provider's answer. *)
Definition charge_confirmed (verifiedStatus verifiedAmountKobo verifiedRef
                             paidAmountKobo transactionRef : value) : bool :=
  strict_eq verifiedStatus (VStr "success")
  && strict_eq verifiedAmountKobo paidAmountKobo
  && strict_eq verifiedRef transactionRef.

Definition verifyPaystackTransaction (E : env) (transactionRef paidAmountKobo : value)
           (secretKey : string) : M bool :=
  try_catch
    (response_data <- http_get E (verify_url transactionRef) (bearer secretKey) ;;
     verifiedData <- get response_data "data" ;;
     verifiedStatus <- get verifiedData "status" ;;
     verifiedAmountKobo <- get verifiedData "amount" ;;
     verifiedRef <- get verifiedData "reference" ;;
     if charge_confirmed verifiedStatus verifiedAmountKobo verifiedRef
                         paidAmountKobo transactionRef
     then
       log "log" "Paystack Verification: Transaction successfully verified and amount matches." ;;
       ret true
     else
       log "warn" "Paystack Verification: Transaction verification failed or amount mismatch." ;;
       log "warn" "Expected Amount, Verified Amount, Status" ;;
       ret false)
    (fun error =>
       log "error" "Error verifying transaction with Paystack:" ;;
       ret false).

Definition verifyPaystackWebhookSignature (req : webhook_request) (secretKey : string)
  : M bool :=
  let signature := header "x-paystack-signature" (headers req) in
  if missing_string signature then
    log "error" "Webhook: Signature header missing." ;;
    ret false
  else
    match JSON_stringify (body req) with
    | None => throw (TypeError "The data argument must be of type string")
    | Some text =>
        let hash := hmac_sha512_hex secretKey text in
        ret (match signature with
             | Some sig => (hash =? sig)%string
             | None => false
             end)
    end.

(** ** The initialization handlers

    From the destructuring of the body to the end, the serverless
    handler and the Express route are the same text but for the
    Authorization header. *)

Definition COHORT : string := "Cohort 3".

Definition initialize_payload (email fullName : string) (amount : Z) : value :=
  VObj [("email", VStr email);
        ("amount", VNum (amount * 100));
        ("metadata", VObj [("full_name", VStr fullName);
                           ("email", VStr email);
                           ("cohort", VStr COHORT);
                           ("amount_naira", VNum amount)])].

(** The try / catch / finally around the transaction; its result tells
    whether the handler goes on to the provider call. *)
Definition prepare_registration (E : env) (email fullName : string) (amount : Z) : M bool :=
  try_finally
    (try_catch
       (pool_connect E ;;
        query_begin E ;;
        existingUser <- query_select E (Some email) ;;
        match existingUser with
        | first :: _ =>
            if (status first =? "paid")%string then
              query_rollback E Rollback ;;
              respond 409 (message_body "This email is already registered and paid for Cohort 3.") ;;
              ret false
            else
              query_write E Update
                (update_registration (NOW E) fullName amount "pending" (Some email)) ;;
              log "log" "Updated existing registration to 'pending' status." ;;
              query_commit E ;;
              ret true
        | [] =>
            query_write E Insert
              (insert_registration (NOW E) email fullName amount COHORT "pending") ;;
            log "log" "Created new pending registration." ;;
            query_commit E ;;
            ret true
        end)
       (fun dbError =>
          (fun w => if client w then query_rollback E RollbackOnError w else (Ok tt, w)) ;;
          log "error" "Database error during registration preparation:" ;;
          respond 500 (message_body "Database error occurred during registration. Please try again.") ;;
          ret false))
    release_if_client.

Definition initialize_transaction (E : env) (authorization : string)
           (email fullName : string) (amount : Z) : M unit :=
  try_catch
    (paystackResponse_data <-
       http_post E initialize_url (initialize_payload email fullName amount) authorization ;;
     respond 200 paystackResponse_data)
    (fun error =>
       log "error" "Error initializing Paystack transaction:" ;;
       respond 500 (VObj [("message", VStr "Failed to initialize payment with Paystack. Please try again.");
                          ("error", error_detail error)])).

Definition initialize_from_body (E : env) (authorization : string) (b : init_body) : M unit :=
  if (missing_string (b_email b) || missing_number (b_amount b)
      || missing_string (b_fullName b)
      || match b_amount b with Some a => (a <=? 0)%Z | None => false end)%bool
  then respond 400 (message_body "Missing or invalid payment details (email, amount, or full name).")
  else
    match b_email b, b_amount b, b_fullName b with
    | Some email, Some amount, Some fullName =>
        proceed <- prepare_registration E email fullName amount ;;
        if proceed then initialize_transaction E authorization email fullName amount
        else ret tt
    | _, _, _ => ret tt
    end.

(** String.prototype.toUpperCase, on the letters a to z. *)
Definition upper_char (c : ascii) : ascii :=
  let n := nat_of_ascii c in
  if ((97 <=? n) && (n <=? 122))%nat%bool then ascii_of_nat (n - 32) else c.

Fixpoint toUpperCase (s : string) : string :=
  match s with
  | EmptyString => EmptyString
  | String c rest => String (upper_char c) (toUpperCase rest)
  end.

(** How an async handler that does not throw ends: it returns, or it
    waits for ever on a promise that nothing resolves. *)
Inductive completion : Type :=
| Returned
| Waiting.

Definition ALLOWED_ORIGIN : string := "https://zoeacademy.infy.uk".

(** The headers the cors middleware sets on a request that is not a
    preflight, for a fixed origin. *)
Definition cors_headers : list event :=
  [SetHeader "Access-Control-Allow-Origin" ALLOWED_ORIGIN; SetHeader "Vary" "Origin"].

(** What it sets and sends on a preflight, with methods ['POST'] and
    allowedHeaders ['Content-Type']. *)
Definition preflight_response : list event :=
  [SetHeader "Access-Control-Allow-Origin" ALLOWED_ORIGIN;
   SetHeader "Vary" "Origin";
   SetHeader "Access-Control-Allow-Methods" "POST";
   SetHeader "Access-Control-Allow-Headers" "Content-Type";
   SetHeader "Content-Length" "0";
   Respond 204 VUndef].

Fixpoint emit_all (es : list event) : M unit :=
  match es with
  | [] => ret tt
  | e :: rest => emit e ;; emit_all rest
  end.

(** cors({origin, methods, allowedHeaders})(req, res, next): the result
    tells whether next was called.  An OPTIONS request is answered by the
    middleware itself, with 204, and next is not called. *)
Definition cors (req_method : string) : M bool :=
  if (toUpperCase req_method =? "OPTIONS")%string then
    emit_all preflight_response ;;
    ret false
  else
    emit_all cors_headers ;;
    ret true.

(** api/initialize-payment.js.  The handler first awaits a promise that
    the middleware resolves by calling next: on a preflight it is never
    resolved. *)
Definition api_initialize_payment (E : env) (req : init_request) : M completion :=
  next <- cors (i_method req) ;;
  if negb next then ret Waiting
  else
    (if negb (i_method req =? "POST")%string then
       emit (SetHeader "Allow" "POST") ;;
       respond 405 (message_body "Method Not Allowed")
     else
       if missing_string (PAYSTACK_SECRET_KEY E) then
         log "error" "PAYSTACK_SECRET_KEY is not defined!" ;;
         respond 500 (message_body "Server configuration error: Paystack key missing.")
       else
         match PAYSTACK_SECRET_KEY E with
         | Some key => initialize_from_body E (bearer key) (i_body req)
         | None => ret tt
         end) ;;
    ret Returned.

(** [`${process.env.PAYSTACK_SECRET_KEY}`] *)
Definition env_key_text (E : env) : string :=
  match PAYSTACK_SECRET_KEY E with
  | Some key => key
  | None => "undefined"
  end.

(** app.post('/api/initialize-payment', ...) *)
Definition app_initialize_payment (E : env) (req : init_request) : M unit :=
  initialize_from_body E (bearer (env_key_text E)) (i_body req).

(** ** The webhook handlers *)

(** The UPDATE both handlers send once the charge is confirmed, with the
    two messages that follow it. *)
Definition persist_paid (E : env) (transactionRef customerEmail metadata : value) : M unit :=
  pool_connect E ;;
  query_write E Update
    (markPaid (NOW E) (prepareValue transactionRef) "paid" (prepareValue customerEmail)) ;;
  log "log" "DATABASE ACTION: User marked as 'paid' for Cohort 3." ;;
  _ <- get metadata "full_name" ;;
  _ <- get metadata "cohort" ;;
  log "log" "BUSINESS LOGIC: Confirmation/Access grant.".

(** api/paystack-webhook.js, after the acknowledgment. *)
Definition api_process_event (E : env) (key : string) (event : value) : M unit :=
  try_catch
    (event_type <- get event "event" ;;
     emit (EventFiltered (strict_eq event_type (VStr "charge.success"))) ;;
     if strict_eq event_type (VStr "charge.success") then
       data <- get event "data" ;;
       transactionRef <- get data "reference" ;;
       customer <- get data "customer" ;;
       customerEmail <- get customer "email" ;;
       paidAmountKobo <- get data "amount" ;;
       metadata <- get data "metadata" ;;
       log "log" "Webhook: Processing successful charge." ;;
       isVerified <- verifyPaystackTransaction E transactionRef paidAmountKobo key ;;
       if isVerified then
         try_finally
           (try_catch
              (persist_paid E transactionRef customerEmail metadata)
              (fun dbError => log "error" "Webhook DB Update Error:"))
           release_if_client
       else
         log "warn" "Webhook: Transaction could not be verified by Paystack API."
     else
       log "log" "Webhook: Unhandled event type")
    (fun error => log "error" "Error processing webhook event:").

Definition api_paystack_webhook (E : env) (req : webhook_request) : M unit :=
  if negb (method req =? "POST")%string then
    emit (SetHeader "Allow" "POST") ;;
    respond 405 (VStr "Method Not Allowed")
  else
    if missing_string (PAYSTACK_SECRET_KEY E) then
      log "error" "PAYSTACK_SECRET_KEY is not defined!" ;;
      respond 500 (VStr "Server configuration error: Paystack key missing.")
    else
      match PAYSTACK_SECRET_KEY E with
      | Some key =>
          valid <- verifyPaystackWebhookSignature req key ;;
          emit (SignatureChecked valid) ;;
          if negb valid then
            log "error" "Webhook: Invalid signature received!" ;;
            respond 400 (VStr "Invalid signature")
          else
            respond 200 (VStr "Webhook Received") ;;
            api_process_event E key (body req)
      | None => ret tt
      end.

(** processWebhookEvent of the Express server. *)
Definition processWebhookEvent (E : env) (event : value) : M unit :=
  event_type <- get event "event" ;;
  emit (EventFiltered (strict_eq event_type (VStr "charge.success"))) ;;
  if strict_eq event_type (VStr "charge.success") then
    data <- get event "data" ;;
    transactionRef <- get data "reference" ;;
    transactionStatus <- get data "status" ;;
    customer <- get data "customer" ;;
    customerEmail <- get customer "email" ;;
    paidAmountKobo <- get data "amount" ;;
    metadata <- get data "metadata" ;;
    log "log" "Webhook: Processing successful charge." ;;
    try_finally
      (try_catch
         (response_data <- http_get E (verify_url transactionRef) (bearer (env_key_text E)) ;;
          verifiedData <- get response_data "data" ;;
          verifiedStatus <- get verifiedData "status" ;;
          verifiedAmountKobo <- get verifiedData "amount" ;;
          verifiedRef <- get verifiedData "reference" ;;
          if charge_confirmed verifiedStatus verifiedAmountKobo verifiedRef
                              paidAmountKobo transactionRef
          then
            log "log" "Transaction successfully verified and amount matches." ;;
            persist_paid E transactionRef customerEmail metadata
          else
            log "warn" "Transaction verification failed or amount mismatch." ;;
            log "warn" "Webhook received: Status, Amount" ;;
            log "warn" "Paystack verification: Status, Amount")
         (fun error =>
            log "error" "Error during transaction verification or database update:"))
      release_if_client
  else
    log "log" "Webhook: Unhandled event type".

(** app.post('/api/paystack-webhook', ...): the hash is computed first,
    with whatever the configuration holds; crypto.createHmac throws on an
    undefined key, and update on an undefined text. *)
Definition app_paystack_webhook (E : env) (req : webhook_request) : M unit :=
  hash <- match PAYSTACK_SECRET_KEY E, JSON_stringify (body req) with
          | None, _ => throw (TypeError "The key argument must be of type string")
          | Some _, None => throw (TypeError "The data argument must be of type string")
          | Some secret, Some text => ret (hmac_sha512_hex secret text)
          end ;;
  let valid := match header "x-paystack-signature" (headers req) with
               | Some sig => (hash =? sig)%string
               | None => false
               end in
  emit (SignatureChecked valid) ;;
  if negb valid then
    log "error" "Webhook: Invalid signature received!" ;;
    respond 400 (VStr "Bad Request")
  else
    respond 200 (VStr "OK") ;;
    try_catch
      (processWebhookEvent E (body req))
      (fun error => log "error" "Unhandled error processing webhook event:").

(** ** Running a handler on a table *)

Definition start (s : store) : world := mkWorld s None false [].

Definition run {A} (m : M A) (s : store) : result A * world := m (start s).

Definition final_table {A} (m : M A) (s : store) : store := table (snd (run m s)).

Definition effects {A} (m : M A) (s : store) : list event := trace (snd (run m s)).

Definition responses (t : list event) : list Z :=
  flat_map (fun e => match e with Respond code _ => [code] | _ => [] end) t.

(** ** What the provider reports, and what the event claims *)

(** The status, amount and reference in the provider's answer to the
    verification call, when it answers and the answer has them. *)
Definition provider_report (E : env) (url authorization : string)
  : option (value * value * value) :=
  match axios_get E url authorization with
  | Ok response_data =>
      match get_prop response_data "data" with
      | Some verifiedData =>
          match get_prop verifiedData "status",
                get_prop verifiedData "amount",
                get_prop verifiedData "reference" with
          | Some st, Some am, Some rf => Some (st, am, rf)
          | _, _, _ => None
          end
      | None => None
      end
  | Throw _ => None
  end.

Definition verification (E : env) (authorization : string)
           (transactionRef paidAmountKobo : value) : bool :=
  match provider_report E (verify_url transactionRef) authorization with
  | Some (st, am, rf) => charge_confirmed st am rf paidAmountKobo transactionRef
  | None => false
  end.

(** [event.data.k] *)
Definition event_field (event : value) (k : string) : option value :=
  match get_prop event "data" with
  | Some data => get_prop data k
  | None => None
  end.

Definition is_http_get (e : event) : bool :=
  match e with HttpGet _ _ => true | _ => false end.

Definition is_http_post (e : event) : bool :=
  match e with HttpPost _ _ _ => true | _ => false end.

Definition is_query (e : event) : bool :=
  match e with Query _ => true | _ => false end.

Definition is_respond (e : event) : bool :=
  match e with Respond _ _ => true | _ => false end.




(** Every [target] event of the trace has a [guard] event before it. *)
Fixpoint preceded_by (guard target : event -> bool) (t : list event) : bool :=
  match t with
  | [] => true
  | e :: rest =>
      if guard e then true
      else if target e then false
      else preceded_by guard target rest
  end.

(** ** Statements about the webhook handlers *)

(** The table is written only once the provider has confirmed the charge
    of the event at hand: every database call of the trace comes after
    the provider call; an UPDATE in the trace means the verification of
    the event's reference and amount succeeded; without an UPDATE the
    table is as it was; and a failed verification leaves the table alone
    and the database untouched. *)
Definition paid_only_after_verification (E : env) (req : webhook_request) (s : store)
           (handler : M unit) : Prop :=
  let t := effects handler s in
  let authorization := bearer (env_key_text E) in
  preceded_by is_http_get is_query t = true
  /\ (In (Query Update) t ->
      exists transactionRef paidAmountKobo,
        event_field (body req) "reference" = Some transactionRef
        /\ event_field (body req) "amount" = Some paidAmountKobo
        /\ verification E authorization transactionRef paidAmountKobo = true
        /\ In (HttpGet (verify_url transactionRef) authorization) t)
  /\ (~ In (Query Update) t -> final_table handler s = s)
  /\ (forall transactionRef paidAmountKobo,
         event_field (body req) "reference" = Some transactionRef ->
         event_field (body req) "amount" = Some paidAmountKobo ->
         verification E authorization transactionRef paidAmountKobo = false ->
         final_table handler s = s /\ existsb is_query t = false).

(** The amount the provider reports is compared with the amount of the
    event: when they differ the table is left as it was and the database
    is not called.  The handler never reads the table. *)
Definition amount_mismatch_blocks (E : env) (req : webhook_request) (s : store)
           (handler : M unit) : Prop :=
  let t := effects handler s in
  (forall transactionRef paidAmountKobo st am rf,
      event_field (body req) "reference" = Some transactionRef ->
      event_field (body req) "amount" = Some paidAmountKobo ->
      provider_report E (verify_url transactionRef) (bearer (env_key_text E))
      = Some (st, am, rf) ->
      strict_eq am paidAmountKobo = false ->
      final_table handler s = s /\ existsb is_query t = false)
  /\ ~ In (Query Select) t.

(** The claim as the specification words it: the provider's amount is
    compared with the recorded amount_paid times 100, and a difference
    keeps the table as it was. *)
Definition recorded_amount_mismatch_blocks
           (handler : env -> webhook_request -> M unit) : Prop :=
  forall (E : env) (req : webhook_request) (s : store) (e : string) (r : registration)
         (transactionRef customer st am rf : value),
    event_field (body req) "reference" = Some transactionRef ->
    event_field (body req) "customer" = Some customer ->
    get_prop customer "email" = Some (VStr e) ->
    findByEmail e s = Some r ->
    provider_report E (verify_url transactionRef) (bearer (env_key_text E)) = Some (st, am, rf) ->
    strict_eq am (VNum (amount_paid r * 100)) = false ->
    final_table (handler E req) s = s.

(** ** The acknowledgment of a webhook request *)

(** The request is signed as the handlers check it: the header is the
    HMAC of the serialized body under the key. *)
Definition correctly_signed (key : string) (req : webhook_request) : Prop :=
  exists text,
    JSON_stringify (body req) = Some text
    /\ header "x-paystack-signature" (headers req) = Some (hmac_sha512_hex key text).



(** ** Statements about the initialization handlers *)

(** The body carries an email, a positive amount and a full name. *)
Definition valid_body (b : init_body) (e f : string) (a : Z) : Prop :=
  b_email b = Some e /\ e <> "" /\ b_amount b = Some a /\ 0 < a
  /\ b_fullName b = Some f /\ f <> "".

Definition healthy (E : env) : Prop := forall op, db_fails E op = false.

Definition is_write (e : event) : bool :=
  match e with
  | Query Update | Query Insert | Query Commit => true
  | _ => false
  end.

(** The handler leaves the table as it is, sends no write to the
    database, does not call the provider, and answers 409 when the
    database calls succeed. *)
Definition refuses_paid {A} (E : env) (s : store) (handler : M A) : Prop :=
  final_table handler s = s
  /\ existsb is_http_post (effects handler s) = false
  /\ existsb is_write (effects handler s) = false
  /\ (healthy E -> responses (effects handler s) = [409]).

(** What the transaction of the initialization leaves in the table for a
    registration that is not paid. *)
Definition upsertPending (now : nat) (e f : string) (a : Z) (s : store) : store :=
  match select_by_email (Some e) s with
  | _ :: _ => update_registration now f a "pending" (Some e) s
  | [] => insert_registration now e f a COHORT "pending" s
  end.

Definition pending_with (e f : string) (a : Z) (r : registration) : Prop :=
  email r = e /\ status r = "pending" /\ full_name r = f /\ amount_paid r = a.

(** The handler answers 500 and the table holds what the transaction
    wrote: every row of the email is pending with the submitted name and
    amount, and there is one. *)
Definition pending_after_gateway_failure {A} (E : env) (s : store) (e f : string) (a : Z)
           (handler : M A) : Prop :=
  responses (effects handler s) = [500]
  /\ final_table handler s = upsertPending (NOW E) e f a s
  /\ final_table handler s = final_table (prepare_registration E e f a) s
  /\ (forall r, In r (final_table handler s) -> email r = e -> pending_with e f a r)
  /\ (exists r, In r (final_table handler s) /\ pending_with e f a r).

(** ** Statements about markPaid *)

(** The same deployment at another time. *)
Definition at_time (E : env) (now : nat) : env :=
  mkEnv (PAYSTACK_SECRET_KEY E) now (db_fails E) (axios_get E) (axios_post E).

Definition without_updated_at (r : registration) : registration :=
  mkRegistration (email r) (full_name r) (amount_paid r) (cohort r) (status r)
                 (payment_ref r) (created_at r) 0.

(** What a webhook delivery does to the table, at any time and on any
    table: nothing, or markPaid with the reference and the email of the
    event. *)
Definition delivery_effect (E : env) (req : webhook_request)
           (handler : env -> webhook_request -> M unit) : Prop :=
  (forall now s, final_table (handler (at_time E now) req) s = s)
  \/ (exists transactionRef customer customerEmail,
         event_field (body req) "reference" = Some transactionRef
         /\ event_field (body req) "customer" = Some customer
         /\ get_prop customer "email" = Some customerEmail
         /\ forall now s,
             final_table (handler (at_time E now) req) s
             = markPaid now (prepareValue transactionRef) "paid"
                        (prepareValue customerEmail) s).

(** ** A concrete deployment: one pending registration, a provider that
    confirms the charge the event describes *)

Module Scenario.

Definition key : string := "sk_test_4f1c".

Definition pending_row : registration :=
  mkRegistration "a@x.com" "A" 50000 COHORT "pending" None 1 1.

Definition charge (reference : string) (amount : Z) : value :=
  VObj [("event", VStr "charge.success");
        ("data", VObj [("reference", VStr reference);
                       ("status", VStr "success");
                       ("amount", VNum amount);
                       ("customer", VObj [("email", VStr "a@x.com")]);
                       ("metadata", VObj [("full_name", VStr "A");
                                          ("cohort", VStr COHORT)])])].

(** The provider's answer to the verification call for a charge of
    [amount] under [reference]. *)
Definition confirms (reference : string) (amount : Z) : value :=
  VObj [("status", VBool true);
        ("data", VObj [("status", VStr "success");
                       ("reference", VStr reference);
                       ("amount", VNum amount)])].

Definition provider (reference : string) (amount : Z) : env :=
  mkEnv (Some key) 7 (fun _ => false)
        (fun _ _ => Ok (confirms reference amount))
        (fun _ _ _ => Throw (AxiosError None "connect ETIMEDOUT")).

Definition text_of (v : value) : string :=
  match JSON_stringify v with
  | Some t => t
  | None => ""
  end.

(** A POST of [event], signed as the handlers check it. *)
Definition signed (event : value) : webhook_request :=
  mkWebhookRequest "POST"
    [("x-paystack-signature", hmac_sha512_hex key (text_of event))]
    (text_of event) event.

(** A webhook body as the provider serializes it, with the slashes of a
    URL escaped, and what the body parser makes of it. *)
Definition raw_event : string :=
  "{" ++ quote "event" ++ ":" ++ quote "charge.success" ++ ","
  ++ quote "data" ++ ":{"
  ++ quote "reference" ++ ":" ++ quote "ref1" ++ ","
  ++ quote "status" ++ ":" ++ quote "success" ++ ","
  ++ quote "amount" ++ ":5000000,"
  ++ quote "customer" ++ ":{" ++ quote "email" ++ ":" ++ quote "a@x.com" ++ "},"
  ++ quote "metadata" ++ ":{"
  ++ quote "full_name" ++ ":" ++ quote "A" ++ ","
  ++ quote "cohort" ++ ":" ++ quote "Cohort 3" ++ ","
  ++ quote "referrer" ++ ":" ++ dquote ++ "https:" ++ backslash ++ "/" ++ backslash
  ++ "/zoeacademy.infy.uk" ++ backslash ++ "/" ++ dquote
  ++ "}}}".

Definition parsed_event : value :=
  VObj [("event", VStr "charge.success");
        ("data", VObj [("reference", VStr "ref1");
                       ("status", VStr "success");
                       ("amount", VNum 5000000);
                       ("customer", VObj [("email", VStr "a@x.com")]);
                       ("metadata", VObj [("full_name", VStr "A");
                                          ("cohort", VStr COHORT);
                                          ("referrer", VStr "https://zoeacademy.infy.uk/")])])].

(** The request the provider sends for [raw_event]: the signature is the
    HMAC of the bytes sent. *)
Definition provider_signed : webhook_request :=
  mkWebhookRequest "POST"
    [("x-paystack-signature", hmac_sha512_hex key raw_event)]
    raw_event parsed_event.

Definition paid_row : registration :=
  mkRegistration "a@x.com" "A" 50000 COHORT "paid" (Some "ref0") 1 3.

(** POST /api/initialize-payment with {email: "a@x.com", amount, fullName: "A"} *)
Definition submit (amount : Z) : init_request :=
  mkInitRequest "POST" (mkInitBody (Some "a@x.com") (Some amount) (Some "A")).


(** The deployment without its secret key. *)
Definition unconfigured : env :=
  mkEnv None 7 (fun _ => false)
        (fun _ _ => Ok (confirms "ref1" 5000000))
        (fun _ _ _ => Throw (AxiosError None "connect ETIMEDOUT")).

End Scenario.

(** ** Further statements *)

(** A body the validation rejects: a field is absent or empty, or the
    amount is zero or negative. *)
Definition invalid_body (b : init_body) : Prop :=
  b_email b = None \/ b_email b = Some ""
  \/ b_amount b = None \/ (exists a, b_amount b = Some a /\ a <= 0)
  \/ b_fullName b = None \/ b_fullName b = Some "".

Definition bad_request : list event :=
  [Respond 400 (message_body "Missing or invalid payment details (email, amount, or full name).")].

Definition is_commit (e : event) : bool :=
  match e with Query Commit => true | _ => false end.

(** The statement that writes the registration: the UPDATE when the
    email has a row, the INSERT otherwise. *)
Definition write_op (e : string) (s : store) : db_op :=
  match select_by_email (Some e) s with
  | _ :: _ => Update
  | [] => Insert
  end.

(** One of the calls of the transaction fails. *)
Definition transaction_fails (E : env) (e : string) (s : store) : Prop :=
  db_fails E Connect = true \/ db_fails E Begin = true \/ db_fails E Select = true
  \/ db_fails E (write_op e s) = true \/ db_fails E Commit = true.

(** Nothing is written, the provider is not called, and the answer is
    500 unless the ROLLBACK of the error handler fails too; then the
    handler throws without a response. *)
Definition transaction_rolled_back {A} (E : env) (s : store) (h : M A) : Prop :=
  final_table h s = s
  /\ existsb is_http_post (effects h s) = false
  /\ (db_fails E Connect = true \/ db_fails E RollbackOnError = false ->
      responses (effects h s) = [500])
  /\ (db_fails E Connect = false -> db_fails E RollbackOnError = true ->
      responses (effects h s) = [] /\ exists err, fst (run h s) = Throw err).

Definition not_paid (e : string) (s : store) : Prop :=
  forall r, findByEmail e s = Some r -> status r <> "paid".

(** The trace without the log messages and the response bodies. *)
Definition observable (t : list event) : list event :=
  flat_map (fun e => match e with
                     | Log _ _ => []
                     | Respond code _ => [Respond code VNull]
                     | _ => [e]
                     end) t.

(** At the end of the run no client is checked out of the pool. *)
Definition client_returned {A} (m : M A) (s : store) : Prop :=
  client (snd (run m s)) = false.

(** At the end of the run no transaction is open. *)
Definition transaction_closed {A} (m : M A) (s : store) : Prop :=
  tx (snd (run m s)) = None.

(** The handler returns normally and has sent one response. *)
Definition answers_once {A} (m : M A) (s : store) : Prop :=
  (exists a, fst (run m s) = Ok a) /\ List.length (responses (effects m s)) = 1%nat.

Definition serializable (req : webhook_request) : Prop :=
  exists text, JSON_stringify (body req) = Some text.


(** ** Further deployments *)

Module Deployment.

(** What the provider answers to an initialization. *)
Definition initialized : value :=
  VObj [("status", VBool true);
        ("message", VStr "Authorization URL created");
        ("data", VObj [("authorization_url", VStr "https://checkout.paystack.com/0peioxfhpn");
                       ("access_code", VStr "0peioxfhpn");
                       ("reference", VStr "ref1")])].

(** The provider answers both calls. *)
Definition reachable : env :=
  mkEnv (Some Scenario.key) 7 (fun _ => false)
        (fun _ _ => Ok (Scenario.confirms "ref1" 5000000))
        (fun _ _ _ => Ok initialized).

(** The database accepts every statement but COMMIT. *)
Definition commit_fails : env :=
  mkEnv (Some Scenario.key) 7
        (fun op => match op with Commit => true | _ => false end)
        (fun _ _ => Ok (Scenario.confirms "ref1" 5000000))
        (fun _ _ _ => Ok initialized).

(** The SELECT fails, and so does the ROLLBACK of the catch block. *)
Definition select_and_rollback_fail : env :=
  mkEnv (Some Scenario.key) 7
        (fun op => match op with Select | RollbackOnError => true | _ => false end)
        (fun _ _ => Ok (Scenario.confirms "ref1" 5000000))
        (fun _ _ _ => Ok initialized).

(** The database refuses connections. *)
Definition database_down : env :=
  mkEnv (Some Scenario.key) 7
        (fun op => match op with Connect => true | _ => false end)
        (fun _ _ => Ok (Scenario.confirms "ref1" 5000000))
        (fun _ _ _ => Ok initialized).

(** The key is not configured; the provider answers all the same. *)
Definition keyless : env :=
  mkEnv None 7 (fun _ => false)
        (fun _ _ => Ok (Scenario.confirms "ref1" 5000000))
        (fun _ _ _ => Ok initialized).

(** A request and an event of another customer. *)
Definition submit_other : init_request :=
  mkInitRequest "POST" (mkInitBody (Some "b@x.com") (Some 100) (Some "B")).

Definition charge_other : value :=
  VObj [("event", VStr "charge.success");
        ("data", VObj [("reference", VStr "ref2");
                       ("status", VStr "success");
                       ("amount", VNum 100);
                       ("customer", VObj [("email", VStr "b@x.com")]);
                       ("metadata", VObj [("full_name", VStr "B");
                                          ("cohort", VStr COHORT)])])].

(** An event of another type. *)
Definition transfer : value :=
  VObj [("event", VStr "transfer.success");
        ("data", VObj [("reference", VStr "ref9"); ("amount", VNum 100)])].

End Deployment.

(** * Properties *)

(** ** The digest and the JSON functions on known inputs *)

Example sha512_abc :
  sha512_hex "abc" =
  "ddaf35a193617abacc417349ae20413112e6fa4e89a97ea20a9eeee64b55d39a2192992a274fc1a836ba3c23a3feebbd454d4423643ce80e2a9ac94fa54ca49f".
Proof. vm_compute. reflexivity. Qed.

(** RFC 4231, test case 2. *)
Example hmac_rfc4231_case2 :
  hmac_sha512_hex "Jefe" "what do ya want for nothing?" =
  "164b7a7bfcf819e2e395fbe73b56e0a387bd64222e831fd610270cd7ea2505549758bf75c05a994a6d034f65f8f0e6fdcaeab1a34d4a6b4b636e070a38bce737".
Proof. vm_compute. reflexivity. Qed.

Example stringify_event :
  JSON_stringify (VObj [("event", VStr "charge.success");
                        ("data", VObj [("amount", VNum 5000000); ("gone", VUndef);
                                       ("tags", VArr [VNull; VBool true])])])
  = Some ("{" ++ dquote ++ "event" ++ dquote ++ ":" ++ dquote ++ "charge.success" ++ dquote
          ++ "," ++ dquote ++ "data" ++ dquote ++ ":{" ++ dquote ++ "amount" ++ dquote
          ++ ":5000000," ++ dquote ++ "tags" ++ dquote ++ ":[null,true]}}").
Proof. reflexivity. Qed.

Example parse_spaced_event :
  JSON_parse ("{ " ++ dquote ++ "event" ++ dquote ++ " : " ++ dquote ++ "charge.success" ++ dquote
              ++ ", " ++ dquote ++ "data" ++ dquote ++ ": {" ++ dquote ++ "amount" ++ dquote
              ++ ": 5000000, " ++ dquote ++ "ok" ++ dquote ++ ": [true, null, -3]} }")
  = Some (VObj [("event", VStr "charge.success");
                ("data", VObj [("amount", VNum 5000000);
                               ("ok", VArr [VBool true; VNull; VNum (-3)])])]).
Proof. vm_compute. reflexivity. Qed.


Ltac break_match :=
  match goal with
  | |- context [match ?x with _ => _ end] =>
      lazymatch x with
      | context [match _ with _ => _ end] => fail
      | _ => destruct x eqn:?
      end
  end.

Arguments hmac_sha512_hex : simpl never.
Arguments JSON_stringify : simpl never.
Arguments to_string : simpl never.
Arguments prepareValue : simpl never.
Arguments String.eqb : simpl never.
Arguments String.append : simpl never.

Ltac inv_pairs :=
  repeat match goal with
         | H : (_, _) = (_, _) |- _ => inversion H; clear H; subst
         end.

Lemma strict_eq_str (v : value) (s : string) :
  strict_eq v (VStr s) = true <-> v = VStr s.
Proof.
  destruct v; cbn; split; intro H; try discriminate H.
  - apply String.eqb_eq in H. now subst.
  - inversion H. apply String.eqb_refl.
Qed.

Lemma strict_eq_num (v : value) (n : Z) :
  strict_eq v (VNum n) = true <-> v = VNum n.
Proof.
  destruct v; cbn; split; intro H; try discriminate H.
  - apply Z.eqb_eq in H. now subst.
  - inversion H. apply Z.eqb_refl.
Qed.

(** The gateway's verification never throws, writes nothing, makes the
    one provider call and returns [verification]. *)
Lemma verifyPaystackTransaction_result (E : env) (transactionRef paidAmountKobo : value)
      (secretKey : string) (w : world) :
  exists evs,
    verifyPaystackTransaction E transactionRef paidAmountKobo secretKey w
    = (Ok (verification E (bearer secretKey) transactionRef paidAmountKobo),
       mkWorld (table w) (tx w) (client w)
               (trace w ++ HttpGet (verify_url transactionRef) (bearer secretKey) :: evs)%list)
    /\ forallb (fun e => match e with Log _ _ => true | _ => false end) evs = true.
Proof.
  unfold verifyPaystackTransaction, verification, provider_report, try_catch, bind,
    http_get, get, log, emit, ret, throw.
  cbn.
  repeat (break_match; cbn in * ); try discriminate; inv_pairs; cbn;
    rewrite <- ?app_assoc; cbn; eexists; split; reflexivity.
Qed.

Lemma verification_typed (E : env) (authorization reference : string) (expected : Z) :
  verification E authorization (VStr reference) (VNum expected) = true <->
  exists response_data verifiedData,
    axios_get E (verify_url (VStr reference)) authorization = Ok response_data
    /\ get_prop response_data "data" = Some verifiedData
    /\ get_prop verifiedData "status" = Some (VStr "success")
    /\ get_prop verifiedData "reference" = Some (VStr reference)
    /\ get_prop verifiedData "amount" = Some (VNum expected).
Proof.
  unfold verification, provider_report, charge_confirmed. split.
  - repeat (break_match; try discriminate). inv_pairs. intro H.
    apply andb_prop in H. destruct H as [H Hr]. apply andb_prop in H. destruct H as [Hs Ha].
    apply strict_eq_str in Hs, Hr. apply strict_eq_num in Ha. subst.
    eauto 10.
  - intros (rd & vd & -> & -> & -> & -> & ->).
    rewrite !andb_true_iff. repeat split.
    + cbn. apply Z.eqb_refl.
    + cbn. apply String.eqb_refl.
Qed.

(** C5. verifyPaystackTransaction never throws, whatever it is given and
    whatever the provider call does; called with a reference and an
    expected amount in minor units, it returns true exactly when the
    provider answered and its answer carries the status "success", the
    requested reference and the expected amount.  A failed call, a
    missing field or a differing one gives false. *)
Theorem C5_verifyTransaction_true_iff_all_three_agree :
  forall (E : env) (secretKey : string) (w : world),
    (forall transactionRef paidAmountKobo : value,
        exists (b : bool) (w' : world),
          verifyPaystackTransaction E transactionRef paidAmountKobo secretKey w = (Ok b, w')
          /\ table w' = table w)
    /\ (forall (reference : string) (expectedAmountMinorUnits : Z),
           fst (verifyPaystackTransaction E (VStr reference) (VNum expectedAmountMinorUnits)
                                          secretKey w) = Ok true
           <->
           exists response_data verifiedData,
             axios_get E (verify_url (VStr reference)) (bearer secretKey) = Ok response_data
             /\ get_prop response_data "data" = Some verifiedData
             /\ get_prop verifiedData "status" = Some (VStr "success")
             /\ get_prop verifiedData "reference" = Some (VStr reference)
             /\ get_prop verifiedData "amount" = Some (VNum expectedAmountMinorUnits))
    /\ (forall (reference : string) (expectedAmountMinorUnits : Z),
           fst (verifyPaystackTransaction E (VStr reference) (VNum expectedAmountMinorUnits)
                                          secretKey w) = Ok true
           \/ fst (verifyPaystackTransaction E (VStr reference) (VNum expectedAmountMinorUnits)
                                             secretKey w) = Ok false).
Proof.
  intros E secretKey w. split; [| split].
  - intros r a. destruct (verifyPaystackTransaction_result E r a secretKey w) as (evs & -> & _).
    eauto.
  - intros r a.
    destruct (verifyPaystackTransaction_result E (VStr r) (VNum a) secretKey w) as (evs & -> & _).
    cbn [fst]. rewrite <- verification_typed. split.
    + intro H. now inversion H.
    + intro H. now rewrite H.
  - intros r a.
    destruct (verifyPaystackTransaction_result E (VStr r) (VNum a) secretKey w) as (evs & -> & _).
    cbn [fst]. destruct (verification _ _ _ _); auto.
Qed.

Ltac run_handler :=
  unfold effects, final_table, run, start;
  unfold api_paystack_webhook, app_paystack_webhook, api_process_event, processWebhookEvent,
    verifyPaystackWebhookSignature, verifyPaystackTransaction, persist_paid,
    try_catch, try_finally, bind, release_if_client, client_release,
    pool_connect, query_write, db_call, http_get, get, log, respond, emit, ret, throw,
    set_view, view, missing_string;
  cbn.

Ltac rewrite_known :=
  repeat match goal with
         | H : ?x = _ |- context [?x] => rewrite H
         end.

Ltac same_fields :=
  repeat match goal with
         | H : Some _ = Some _ |- _ => inversion H; clear H; subst
         end.

Ltac solve_paid_only_after_verification :=
  unfold paid_only_after_verification; cbv zeta; run_handler;
  unfold verification, provider_report, event_field, env_key_text;
  repeat (break_match; cbn in * ); try discriminate; inv_pairs; cbn;
  (split; [reflexivity |]);
  (split;
   [ first [ solve [intros H; exfalso; intuition discriminate]
           | solve [intros _; do 2 eexists;
                    split; [reflexivity | split; [reflexivity |
                      split; [rewrite_known; first [assumption | reflexivity] | tauto]]]] ] |]);
  (split;
   [ first [ solve [intros; reflexivity] | solve [intros H; exfalso; apply H; tauto] ] |]);
  intros ? ? H1 H2 H3; try discriminate; same_fields;
  try (split; reflexivity);
  revert H3; rewrite_known; congruence.

Lemma paid_only_after_verification_api (E : env) (req : webhook_request) (s : store) :
  paid_only_after_verification E req s (api_paystack_webhook E req).
Proof. solve_paid_only_after_verification. Qed.

Lemma paid_only_after_verification_app (E : env) (req : webhook_request) (s : store) :
  paid_only_after_verification E req s (app_paystack_webhook E req).
Proof. solve_paid_only_after_verification. Qed.

(** C1. In both webhook handlers the table is written only after the
    provider has confirmed the event's charge: a database call never
    precedes the provider call, an UPDATE implies that the verification
    of the event's own reference and amount returned true, and when that
    verification returns false the table is unchanged and the database is
    not called, whatever the payload says about itself. *)
Theorem C1_paid_only_after_provider_verification :
  forall (E : env) (req : webhook_request) (s : store),
    paid_only_after_verification E req s (api_paystack_webhook E req)
    /\ paid_only_after_verification E req s (app_paystack_webhook E req).
Proof.
  intros E req s. split.
  - apply paid_only_after_verification_api.
  - apply paid_only_after_verification_app.
Qed.

Lemma C1_paid_only_after_provider_verification_witness :
  let E := Scenario.provider "ref1" 5000000 in
  let req := Scenario.signed (Scenario.charge "ref1" 5000000) in
  In (Query Update) (effects (api_paystack_webhook E req) [Scenario.pending_row])
  /\ exists transactionRef paidAmountKobo,
      event_field (body req) "reference" = Some transactionRef
      /\ event_field (body req) "amount" = Some paidAmountKobo
      /\ verification E (bearer (env_key_text E)) transactionRef paidAmountKobo = true
      /\ In (HttpGet (verify_url transactionRef) (bearer (env_key_text E)))
            (effects (api_paystack_webhook E req) [Scenario.pending_row]).
Proof.
  cbv zeta. split.
  - vm_compute. tauto.
  - apply (proj1 (proj2 (proj1 (C1_paid_only_after_provider_verification
                                  (Scenario.provider "ref1" 5000000)
                                  (Scenario.signed (Scenario.charge "ref1" 5000000))
                                  [Scenario.pending_row])))).
    vm_compute. tauto.
Defined.

Ltac solve_amount_mismatch_blocks :=
  unfold amount_mismatch_blocks; cbv zeta; run_handler;
  unfold provider_report, event_field, env_key_text;
  repeat (break_match; cbn in * ); try discriminate; inv_pairs; cbn;
  (split; [| solve [intros H; intuition discriminate]]);
  intros ? ? ? ? ? H1 H2 H3 H4; try discriminate; same_fields;
  try (split; reflexivity);
  revert H3; rewrite_known; intros H3; try discriminate; inv_pairs;
  unfold charge_confirmed in *;
  repeat match goal with
         | H : _ && _ = true |- _ => apply andb_prop in H; destruct H
         end;
  congruence.

Lemma amount_mismatch_blocks_api (E : env) (req : webhook_request) (s : store) :
  amount_mismatch_blocks E req s (api_paystack_webhook E req).
Proof. solve_amount_mismatch_blocks. Qed.

Lemma amount_mismatch_blocks_app (E : env) (req : webhook_request) (s : store) :
  amount_mismatch_blocks E req s (app_paystack_webhook E req).
Proof. solve_amount_mismatch_blocks. Qed.

(** C2, as the code has it.  The amount compared with the provider's is
    the amount of the webhook event (data.amount, in minor units): when
    the provider reports another amount, neither handler writes the table
    or calls the database.  Neither handler reads the table, so the
    amount_paid recorded at initialization takes no part. *)
Theorem C2_event_amount_mismatch_blocks_paid :
  forall (E : env) (req : webhook_request) (s : store),
    amount_mismatch_blocks E req s (api_paystack_webhook E req)
    /\ amount_mismatch_blocks E req s (app_paystack_webhook E req).
Proof.
  intros E req s. split.
  - apply amount_mismatch_blocks_api.
  - apply amount_mismatch_blocks_app.
Qed.

Lemma C2_event_amount_mismatch_blocks_paid_witness :
  let E := Scenario.provider "ref1" 4000000 in
  let req := Scenario.signed (Scenario.charge "ref1" 5000000) in
  final_table (api_paystack_webhook E req) [Scenario.pending_row] = [Scenario.pending_row]
  /\ existsb is_query (effects (api_paystack_webhook E req) [Scenario.pending_row]) = false.
Proof.
  cbv zeta.
  apply (proj1 (proj1 (C2_event_amount_mismatch_blocks_paid
                         (Scenario.provider "ref1" 4000000)
                         (Scenario.signed (Scenario.charge "ref1" 5000000))
                         [Scenario.pending_row]))
               (VStr "ref1") (VNum 5000000) (VStr "success") (VNum 4000000) (VStr "ref1"));
    reflexivity.
Defined.


(** A registration recorded with 50000 (5000000 in minor units) is marked
    paid by an event of 100 minor units that the provider confirms at
    100. *)
Lemma C2_recorded_amount_not_compared :
  ~ recorded_amount_mismatch_blocks api_paystack_webhook
  /\ ~ recorded_amount_mismatch_blocks app_paystack_webhook
  /\ final_table (api_paystack_webhook (Scenario.provider "ref1" 100)
                                       (Scenario.signed (Scenario.charge "ref1" 100)))
                 [Scenario.pending_row]
     = [mkRegistration "a@x.com" "A" 50000 COHORT "paid" (Some "ref1") 1 7].
Proof.
  split; [| split].
  - intro H.
    specialize (H (Scenario.provider "ref1" 100) (Scenario.signed (Scenario.charge "ref1" 100))
                  [Scenario.pending_row] "a@x.com" Scenario.pending_row
                  (VStr "ref1") (VObj [("email", VStr "a@x.com")])
                  (VStr "success") (VNum 100) (VStr "ref1")
                  eq_refl eq_refl eq_refl eq_refl eq_refl eq_refl).
    vm_compute in H. discriminate H.
  - intro H.
    specialize (H (Scenario.provider "ref1" 100) (Scenario.signed (Scenario.charge "ref1" 100))
                  [Scenario.pending_row] "a@x.com" Scenario.pending_row
                  (VStr "ref1") (VObj [("email", VStr "a@x.com")])
                  (VStr "success") (VNum 100) (VStr "ref1")
                  eq_refl eq_refl eq_refl eq_refl eq_refl eq_refl).
    vm_compute in H. discriminate H.
  - vm_compute. reflexivity.
Qed.

(** What verifyPaystackWebhookSignature computes: false without a
    signature header, otherwise the comparison of the header with the
    HMAC of JSON.stringify(req.body).  The bytes received take no part. *)
Lemma verifyPaystackWebhookSignature_checks_stringified_body
      (req : webhook_request) (secretKey : string) (w : world) :
  fst (verifyPaystackWebhookSignature req secretKey w)
  = match header "x-paystack-signature" (headers req) with
    | None => Ok false
    | Some sig =>
        if (sig =? "")%string then Ok false
        else match JSON_stringify (body req) with
             | Some text => Ok (hmac_sha512_hex secretKey text =? sig)%string
             | None => Throw (TypeError "The data argument must be of type string")
             end
    end.
Proof.
  unfold verifyPaystackWebhookSignature, missing_string, bind, log, emit, ret, throw.
  repeat (break_match; cbn); reflexivity.
Qed.

(** C3, evaluated on a request the provider signed.  The body received is
    [raw_event], the header is the HMAC-SHA512 of exactly those bytes
    under the right key, and the parsed body is the parse of those bytes;
    verifyPaystackWebhookSignature hashes JSON.stringify of the parsed
    body, which is another text, and answers false: both handlers reject
    the request with 400. *)
Theorem C3_signature_computed_over_reserialized_body :
  let req := Scenario.provider_signed in
  let E := Scenario.provider "ref1" 5000000 in
  JSON_parse (rawBody req) = Some (body req)
  /\ header "x-paystack-signature" (headers req)
     = Some (hmac_sha512_hex Scenario.key (rawBody req))
  /\ JSON_stringify (body req) <> Some (rawBody req)
  /\ fst (run (verifyPaystackWebhookSignature req Scenario.key) []) = Ok false
  /\ responses (effects (api_paystack_webhook E req) [Scenario.pending_row]) = [400]
  /\ responses (effects (app_paystack_webhook E req) [Scenario.pending_row]) = [400].
Proof.
  cbv zeta. repeat apply conj; vm_compute; try reflexivity; discriminate.
Qed.

(** ** The acknowledgment *)

Lemma compress_length (h block : list Z) :
  List.length h = 8%nat -> List.length (Sha512.compress h block) = 8%nat.
Proof.
  intro H. unfold Sha512.compress.
  generalize (fold_left Sha512.round Sha512.K
                        (Sha512.regs_of_list h, Sha512.block_words block)).
  intros [r win]. rewrite length_map, length_combine, H. reflexivity.
Qed.

Lemma fold_left_invariant {A B : Type} (P : A -> Prop) (f : A -> B -> A) :
  (forall a b, P a -> P (f a b)) ->
  forall (l : list B) (a : A), P a -> P (fold_left f l a).
Proof.
  intros step l. induction l as [| b rest IH]; intros a Ha.
  - exact Ha.
  - apply IH, step, Ha.
Qed.

Lemma fold_compress_length (blocks : list (list Z)) (h : list Z) :
  List.length h = 8%nat ->
  List.length (fold_left Sha512.compress blocks h) = 8%nat.
Proof.
  exact (fold_left_invariant (fun l => List.length l = 8%nat) Sha512.compress
                             compress_length blocks h).
Qed.

Lemma digest_nonempty (msg : list Z) : Sha512.digest msg <> [].
Proof.
  unfold Sha512.digest.
  assert (H0 : List.length Sha512.H0 = 8%nat) by reflexivity.
  pose proof (fold_compress_length
                (Sha512.chunks (List.length (Sha512.pad msg)) 128 (Sha512.pad msg))
                Sha512.H0 H0) as H.
  revert H.
  generalize (fold_left Sha512.compress
                (Sha512.chunks (List.length (Sha512.pad msg)) 128 (Sha512.pad msg))
                Sha512.H0).
  intros [| x rest] H; [discriminate H |].
  cbn [flat_map].
  change (Sha512.be_bytes 8 x)
    with (Sha512.be_bytes 7 (Z.shiftr x 8) ++ [Z.land x 255])%list.
  intro Hnil. apply app_eq_nil in Hnil. destruct Hnil as [Hnil _].
  apply app_eq_nil in Hnil. destruct Hnil as [_ Hnil]. discriminate Hnil.
Qed.

Lemma digest_nonempty_hmac (key msg : list Z) : Sha512.hmac key msg <> [].
Proof. unfold Sha512.hmac. apply digest_nonempty. Qed.

Lemma hmac_sha512_hex_nonempty (key msg : string) :
  (hmac_sha512_hex key msg =? "")%string = false.
Proof.
  apply String.eqb_neq. unfold hmac_sha512_hex, hex_of_bytes.
  pose proof (digest_nonempty_hmac (bytes_of_string key) (bytes_of_string msg)) as H.
  revert H. generalize (Sha512.hmac (bytes_of_string key) (bytes_of_string msg)).
  intros [| b rest] H; [now elim H |].
  cbn [flat_map app string_of_list_ascii]. discriminate.
Qed.

Ltac break_negb :=
  match goal with
  | |- context [negb ?x] =>
      lazymatch x with
      | context [match _ with _ => _ end] => fail
      | true => fail
      | false => fail
      | _ => destruct x eqn:?
      end
  end.

Ltac signature_facts :=
  repeat match goal with
         | H : (hmac_sha512_hex _ _ =? "")%string = true |- _ =>
             rewrite hmac_sha512_hex_nonempty in H; discriminate H
         | H : (?a =? ?a)%string = false |- _ =>
             rewrite String.eqb_refl in H; discriminate H
         | H : (?a =? ?b)%string = true |- _ =>
             apply String.eqb_eq in H; subst
         end.







(** ** Initialization *)

Ltac run_initialize :=
  unfold effects, final_table, run, start;
  unfold api_initialize_payment, app_initialize_payment, initialize_from_body,
    prepare_registration, initialize_transaction,
    try_catch, try_finally, bind, release_if_client, client_release,
    pool_connect, query_begin, query_commit, query_rollback, query_select, query_write,
    db_call, http_post, log, respond, emit, ret, throw,
    set_view, view, missing_string, missing_number;
  cbn.

(** The common part run after some effects is its run from the start
    with those effects in front. *)
Lemma initialize_from_body_after (E : env) (authorization : string) (b : init_body)
      (s : store) (pre : list event) :
  initialize_from_body E authorization b (mkWorld s None false pre)
  = (fst (run (initialize_from_body E authorization b) s),
     mkWorld (table (snd (run (initialize_from_body E authorization b) s)))
             (tx (snd (run (initialize_from_body E authorization b) s)))
             (client (snd (run (initialize_from_body E authorization b) s)))
             (pre ++ trace (snd (run (initialize_from_body E authorization b) s)))%list).
Proof.
  run_initialize.
  destruct b as [[e |] [a |] [f |]]; cbn; rewrite ?orb_true_r; cbn;
    repeat (break_match; cbn in * ); try discriminate; inv_pairs; cbn;
    rewrite <- ?app_assoc; reflexivity.
Qed.

(** The serverless handler on a POST with the key configured: the two
    CORS headers, then the common part. *)
Lemma api_initialize_payment_post (E : env) (req : init_request) (s : store) (key : string) :
  i_method req = "POST" ->
  PAYSTACK_SECRET_KEY E = Some key ->
  key <> "" ->
  run (api_initialize_payment E req) s
  = (match fst (run (initialize_from_body E (bearer key) (i_body req)) s) with
     | Ok _ => Ok Returned
     | Throw err => Throw err
     end,
     mkWorld (final_table (initialize_from_body E (bearer key) (i_body req)) s)
             (tx (snd (run (initialize_from_body E (bearer key) (i_body req)) s)))
             (client (snd (run (initialize_from_body E (bearer key) (i_body req)) s)))
             (cors_headers ++ effects (initialize_from_body E (bearer key) (i_body req)) s)%list).
Proof.
  intros Hm Hk Hne. apply String.eqb_neq in Hne.
  unfold run at 1. unfold start, api_initialize_payment, cors, missing_string.
  rewrite Hm, Hk, Hne.
  change (toUpperCase "POST" =? "OPTIONS")%string with false.
  change ("POST" =? "POST")%string with true.
  unfold bind, ret, emit_all, emit, cors_headers. cbn.
  rewrite initialize_from_body_after.
  unfold final_table, effects.
  destruct (fst (run (initialize_from_body E (bearer key) (i_body req)) s)); reflexivity.
Qed.

Lemma api_initialize_payment_post_table (E : env) (req : init_request) (s : store)
      (key : string) :
  i_method req = "POST" ->
  PAYSTACK_SECRET_KEY E = Some key ->
  key <> "" ->
  final_table (api_initialize_payment E req) s
  = final_table (initialize_from_body E (bearer key) (i_body req)) s.
Proof.
  intros Hm Hk Hne. unfold final_table at 1.
  now rewrite (api_initialize_payment_post E req s key Hm Hk Hne).
Qed.

Lemma api_initialize_payment_post_effects (E : env) (req : init_request) (s : store)
      (key : string) :
  i_method req = "POST" ->
  PAYSTACK_SECRET_KEY E = Some key ->
  key <> "" ->
  effects (api_initialize_payment E req) s
  = (cors_headers ++ effects (initialize_from_body E (bearer key) (i_body req)) s)%list.
Proof.
  intros Hm Hk Hne. unfold effects at 1.
  now rewrite (api_initialize_payment_post E req s key Hm Hk Hne).
Qed.

Lemma configured_key (E : env) :
  missing_string (PAYSTACK_SECRET_KEY E) = false ->
  exists key, PAYSTACK_SECRET_KEY E = Some key /\ key <> "".
Proof.
  unfold missing_string. destruct (PAYSTACK_SECRET_KEY E) as [key |]; [| discriminate].
  intro H. exists key. split; [reflexivity | now apply String.eqb_neq].
Qed.

Lemma valid_body_passes (b : init_body) (e f : string) (a : Z) :
  valid_body b e f a ->
  b_email b = Some e /\ b_amount b = Some a /\ b_fullName b = Some f
  /\ (e =? "")%string = false /\ (f =? "")%string = false
  /\ (a =? 0)%Z = false /\ (a <=? 0)%Z = false.
Proof.
  intros (He & Hne & Ha & Hpos & Hf & Hnf).
  repeat split; auto.
  - now apply String.eqb_neq.
  - now apply String.eqb_neq.
  - apply Z.eqb_neq. lia.
  - apply Z.leb_gt. lia.
Qed.

Lemma findByEmail_select (e : string) (s : store) (r : registration) :
  findByEmail e s = Some r ->
  exists rest, select_by_email (Some e) s = r :: rest.
Proof.
  unfold findByEmail. destruct (select_by_email (Some e) s) as [| x rest]; cbn.
  - discriminate.
  - intro H. inversion H. subst. now exists rest.
Qed.

Lemma refuses_paid_from_body (E : env) (authorization : string) (b : init_body) (s : store)
      (e f : string) (a : Z) (r : registration) :
  valid_body b e f a ->
  findByEmail e s = Some r ->
  status r = "paid" ->
  refuses_paid E s (initialize_from_body E authorization b).
Proof.
  intros Hv Hr Hp.
  apply valid_body_passes in Hv. destruct Hv as (He & Ha & Hf & Hne & Hnf & Hz & Hle).
  apply findByEmail_select in Hr. destruct Hr as (rest & Hsel).
  apply String.eqb_eq in Hp.
  unfold select_by_email in Hsel. cbn in Hsel.
  unfold refuses_paid, healthy. run_initialize.
  rewrite He, Ha, Hf. cbn. rewrite Hne, Hnf, Hz, Hle. cbn.
  repeat (break_match; cbn in * ; rewrite ?Hsel, ?Hp in * ; cbn in * );
    try discriminate; inv_pairs; cbn.
  all: split; [reflexivity | split; [reflexivity | split; [reflexivity |]]].
  all: intros Hh;
    repeat match goal with H : db_fails _ _ = true |- _ => rewrite Hh in H; discriminate H end.
  all: reflexivity.
Qed.

(** C4. For an email whose registration is paid, a valid initialization
    request leaves the table as it is, sends no UPDATE, INSERT or COMMIT,
    makes no provider call, and (the database calls succeeding) answers
    409; in the serverless handler this is for a POST with the key
    configured. *)
Theorem C4_paid_registration_conflict :
  forall (E : env) (req : init_request) (s : store) (e f : string) (a : Z)
         (r : registration),
    valid_body (i_body req) e f a ->
    findByEmail e s = Some r ->
    status r = "paid" ->
    (i_method req = "POST" ->
     (exists key, PAYSTACK_SECRET_KEY E = Some key /\ key <> "") ->
     refuses_paid E s (api_initialize_payment E req))
    /\ refuses_paid E s (app_initialize_payment E req).
Proof.
  intros E req s e f a r Hv Hr Hp. split.
  - intros Hm (key & Hk & Hne).
    destruct (refuses_paid_from_body E (bearer key) (i_body req) s e f a r Hv Hr Hp)
      as (Htab & Hpost & Hwrite & Hanswer).
    unfold refuses_paid.
    rewrite (api_initialize_payment_post_table E req s key Hm Hk Hne),
      (api_initialize_payment_post_effects E req s key Hm Hk Hne).
    unfold cors_headers. cbn [app existsb responses flat_map is_http_post is_write orb].
    auto.
  - unfold app_initialize_payment.
    now apply (refuses_paid_from_body E (bearer (env_key_text E)) (i_body req) s e f a r).
Qed.

Lemma C4_paid_registration_conflict_witness :
  refuses_paid (Scenario.provider "ref1" 5000000) [Scenario.paid_row]
               (api_initialize_payment (Scenario.provider "ref1" 5000000)
                                       (Scenario.submit 60000))
  /\ refuses_paid (Scenario.provider "ref1" 5000000) [Scenario.paid_row]
                  (app_initialize_payment (Scenario.provider "ref1" 5000000)
                                          (Scenario.submit 60000)).
Proof.
  assert (Hv : valid_body (i_body (Scenario.submit 60000)) "a@x.com" "A" 60000).
  { unfold valid_body. cbn. repeat split; try reflexivity; discriminate. }
  destruct (C4_paid_registration_conflict
              (Scenario.provider "ref1" 5000000) (Scenario.submit 60000)
              [Scenario.paid_row] "a@x.com" "A" 60000 Scenario.paid_row
              Hv eq_refl eq_refl) as [Hapi Happ].
  split.
  - apply Hapi.
    + reflexivity.
    + exists Scenario.key. split; [reflexivity | discriminate].
  - exact Happ.
Defined.

Lemma update_registration_rows (now : nat) (f st e : string) (a : Z) (s : store)
      (r : registration) :
  In r (update_registration now f a st (Some e) s) ->
  email r = e ->
  status r = st /\ full_name r = f /\ amount_paid r = a.
Proof.
  unfold update_registration. intros Hin He.
  apply in_map_iff in Hin. destruct Hin as (r0 & Hr0 & _).
  cbn in Hr0. destruct (email r0 =? e)%string eqn:Heq.
  - subst r. cbn. auto.
  - subst r0. apply String.eqb_neq in Heq. contradiction.
Qed.

Lemma select_nil_no_row (e : string) (s : store) (r : registration) :
  select_by_email (Some e) s = [] -> In r s -> email r <> e.
Proof.
  unfold select_by_email. intros Hnil Hin He.
  assert (Hf : In r (filter (fun r0 => sql_eq (email r0) (Some e)) s)).
  { apply filter_In. split; [exact Hin |]. cbn. now apply String.eqb_eq. }
  rewrite Hnil in Hf. exact Hf.
Qed.

Lemma upsertPending_rows (now : nat) (e f : string) (a : Z) (s : store) :
  (forall r, In r (upsertPending now e f a s) -> email r = e -> pending_with e f a r)
  /\ (exists r, In r (upsertPending now e f a s) /\ pending_with e f a r).
Proof.
  unfold upsertPending, pending_with.
  destruct (select_by_email (Some e) s) as [| first rest] eqn:Hsel.
  - split.
    + unfold insert_registration. intros r Hin He. apply in_app_or in Hin.
      destruct Hin as [Hin | [Hin | []]].
      * exfalso. now apply (select_nil_no_row e s r).
      * subst r. cbn. auto.
    + eexists. split.
      * unfold insert_registration. apply in_or_app. right. left. reflexivity.
      * cbn. auto.
  - split.
    + intros r Hin He. split; [exact He |].
      now apply (update_registration_rows now f "pending" e a s r).
    + assert (Hfirst : In first s /\ (email first =? e)%string = true).
      { assert (Hf : In first (select_by_email (Some e) s)) by (rewrite Hsel; now left).
        unfold select_by_email in Hf. apply filter_In in Hf. exact Hf. }
      destruct Hfirst as [Hin Heq].
      exists (mkRegistration (email first) f a (cohort first) "pending"
                             (payment_ref first) (created_at first) now).
      split.
      * unfold update_registration. apply in_map_iff. exists first. split; [| exact Hin].
        cbn. now rewrite Heq.
      * cbn. apply String.eqb_eq in Heq. auto.
Qed.

Lemma pending_after_gateway_failure_from_body
      (E : env) (authorization : string) (b : init_body) (s : store)
      (e f : string) (a : Z) (err : error) :
  valid_body b e f a ->
  healthy E ->
  (forall r, findByEmail e s = Some r -> status r <> "paid") ->
  axios_post E initialize_url (initialize_payload e f a) authorization = Throw err ->
  pending_after_gateway_failure E s e f a (initialize_from_body E authorization b).
Proof.
  intros Hv Hh Hnp Hg.
  apply valid_body_passes in Hv. destruct Hv as (He & Ha & Hf & Hne & Hnf & Hz & Hle).
  assert (Hfinal :
            responses (effects (initialize_from_body E authorization b) s) = [500]
            /\ final_table (initialize_from_body E authorization b) s
               = upsertPending (NOW E) e f a s
            /\ final_table (initialize_from_body E authorization b) s
               = final_table (prepare_registration E e f a) s).
  { unfold upsertPending, findByEmail, select_by_email in *. cbn in Hnp.
    run_initialize.
    rewrite He, Ha, Hf. cbn. rewrite Hne, Hnf, Hz, Hle. cbn.
    rewrite ?Hh. cbn.
    destruct (filter (fun r => (email r =? e)%string) s) as [| first rest] eqn:Hsel; cbn.
    - rewrite ?Hh. cbn. rewrite Hg. cbn. auto.
    - destruct (status first =? "paid")%string eqn:Hp.
      + apply String.eqb_eq in Hp. exfalso. now apply (Hnp first).
      + cbn. rewrite ?Hh. cbn. rewrite Hg. cbn. auto. }
  destruct Hfinal as (Hresp & Htab & Hprep).
  unfold pending_after_gateway_failure.
  split; [exact Hresp |]. split; [exact Htab |]. split; [exact Hprep |].
  rewrite Htab. apply upsertPending_rows.
Qed.

(** C9. When the provider's initialize call fails after the transaction
    has committed, the handler answers 500 and the table is what the
    transaction left: the rows of the email are pending with the submitted
    full name and amount.  The hypotheses are a valid body, database
    calls that succeed and a registration that is not paid. *)
Theorem C9_gateway_failure_leaves_pending_row :
  forall (E : env) (req : init_request) (s : store) (e f : string) (a : Z),
    valid_body (i_body req) e f a ->
    healthy E ->
    (forall r, findByEmail e s = Some r -> status r <> "paid") ->
    (forall authorization, exists err,
        axios_post E initialize_url (initialize_payload e f a) authorization = Throw err) ->
    (i_method req = "POST" ->
     (exists key, PAYSTACK_SECRET_KEY E = Some key /\ key <> "") ->
     pending_after_gateway_failure E s e f a (api_initialize_payment E req))
    /\ pending_after_gateway_failure E s e f a (app_initialize_payment E req).
Proof.
  intros E req s e f a Hv Hh Hnp Hg. split.
  - intros Hm (key & Hk & Hne).
    destruct (Hg (bearer key)) as [err Herr].
    pose proof (pending_after_gateway_failure_from_body E (bearer key) (i_body req) s e f a
                  err Hv Hh Hnp Herr) as Hcore.
    unfold pending_after_gateway_failure in *.
    rewrite (api_initialize_payment_post_table E req s key Hm Hk Hne),
      (api_initialize_payment_post_effects E req s key Hm Hk Hne).
    unfold cors_headers. cbn [app responses flat_map].
    exact Hcore.
  - unfold app_initialize_payment.
    destruct (Hg (bearer (env_key_text E))) as [err Herr].
    now apply (pending_after_gateway_failure_from_body E (bearer (env_key_text E))
                 (i_body req) s e f a err).
Qed.

Lemma C9_gateway_failure_leaves_pending_row_witness :
  pending_after_gateway_failure (Scenario.provider "ref1" 5000000) [Scenario.pending_row]
                                "a@x.com" "A" 60000
                                (api_initialize_payment (Scenario.provider "ref1" 5000000)
                                                        (Scenario.submit 60000))
  /\ pending_after_gateway_failure (Scenario.provider "ref1" 5000000) [Scenario.pending_row]
                                   "a@x.com" "A" 60000
                                   (app_initialize_payment (Scenario.provider "ref1" 5000000)
                                                           (Scenario.submit 60000)).
Proof.
  assert (Hv : valid_body (i_body (Scenario.submit 60000)) "a@x.com" "A" 60000).
  { unfold valid_body. cbn. repeat split; try reflexivity; discriminate. }
  assert (Hh : healthy (Scenario.provider "ref1" 5000000)) by (intro op; reflexivity).
  assert (Hnp : forall r, findByEmail "a@x.com" [Scenario.pending_row] = Some r ->
                          status r <> "paid").
  { intros r Hr. cbn in Hr. inversion Hr. discriminate. }
  assert (Hg : forall authorization, exists err,
               axios_post (Scenario.provider "ref1" 5000000) initialize_url
                          (initialize_payload "a@x.com" "A" 60000) authorization
               = Throw err).
  { intro authorization. eexists. reflexivity. }
  destruct (C9_gateway_failure_leaves_pending_row
              (Scenario.provider "ref1" 5000000) (Scenario.submit 60000)
              [Scenario.pending_row] "a@x.com" "A" 60000 Hv Hh Hnp Hg) as [Hapi Happ].
  split.
  - apply Hapi.
    + reflexivity.
    + exists Scenario.key. split; [reflexivity | discriminate].
  - exact Happ.
Defined.

(** C10. With PAYSTACK_SECRET_KEY absent (or empty), a POST to either
    serverless endpoint produces one error message and the response 500
    and nothing else (on the initialization endpoint, after the two
    headers of the CORS middleware): the initialization endpoint calls
    neither the database nor the provider, the webhook endpoint does not
    look at the signature, so a correctly signed request gets 500 and not
    200. *)
Theorem C10_missing_key_answers_500_first :
  forall (E : env) (ireq : init_request) (wreq : webhook_request) (s : store),
    missing_string (PAYSTACK_SECRET_KEY E) = true ->
    i_method ireq = "POST" ->
    method wreq = "POST" ->
    effects (api_initialize_payment E ireq) s
    = (cors_headers
       ++ [Log "error" "PAYSTACK_SECRET_KEY is not defined!";
           Respond 500 (message_body "Server configuration error: Paystack key missing.")])%list
    /\ final_table (api_initialize_payment E ireq) s = s
    /\ effects (api_paystack_webhook E wreq) s
       = [Log "error" "PAYSTACK_SECRET_KEY is not defined!";
          Respond 500 (VStr "Server configuration error: Paystack key missing.")]
    /\ final_table (api_paystack_webhook E wreq) s = s.
Proof.
  intros E ireq wreq s Hk Hi Hw.
  apply String.eqb_eq in Hw.
  unfold effects, final_table, run, start, api_initialize_payment, api_paystack_webhook, cors.
  rewrite Hi, Hw, Hk.
  change (toUpperCase "POST" =? "OPTIONS")%string with false.
  change ("POST" =? "POST")%string with true.
  cbn. auto.
Qed.

Lemma C10_missing_key_answers_500_first_witness :
  responses (effects (api_initialize_payment Scenario.unconfigured (Scenario.submit 60000))
                     [Scenario.pending_row]) = [500]
  /\ responses (effects (api_paystack_webhook Scenario.unconfigured
                           (Scenario.signed (Scenario.charge "ref1" 5000000)))
                        [Scenario.pending_row]) = [500].
Proof.
  destruct (C10_missing_key_answers_500_first
              Scenario.unconfigured (Scenario.submit 60000)
              (Scenario.signed (Scenario.charge "ref1" 5000000))
              [Scenario.pending_row] eq_refl eq_refl eq_refl)
    as (Hinit & _ & Hhook & _).
  rewrite Hinit, Hhook. split; reflexivity.
Defined.

(** ** markPaid *)

Lemma markPaid_absorbs (t1 t2 : nat) (p_ref : sql_param) (st : string)
      (p_email : sql_param) (s : store) :
  markPaid t2 p_ref st p_email (markPaid t1 p_ref st p_email s)
  = markPaid t2 p_ref st p_email s.
Proof.
  unfold markPaid. rewrite map_map. apply map_ext. intro r.
  destruct (sql_eq (email r) p_email) eqn:Heq; cbn; rewrite Heq; reflexivity.
Qed.

Lemma markPaid_emails (now : nat) (p_ref : sql_param) (st : string)
      (p_email : sql_param) (s : store) :
  map email (markPaid now p_ref st p_email s) = map email s.
Proof.
  unfold markPaid. rewrite map_map. apply map_ext. intro r.
  destruct (sql_eq (email r) p_email); reflexivity.
Qed.

Lemma markPaid_rows (now : nat) (p_ref : sql_param) (st : string)
      (p_email : sql_param) (s : store) (r : registration) :
  In r (markPaid now p_ref st p_email s) ->
  sql_eq (email r) p_email = true ->
  status r = st /\ payment_ref r = p_ref /\ updated_at r = now.
Proof.
  unfold markPaid. intros Hin He. apply in_map_iff in Hin.
  destruct Hin as (r0 & Hr0 & _).
  destruct (sql_eq (email r0) p_email) eqn:Heq.
  - subst r. cbn. auto.
  - subst r0. congruence.
Qed.

Lemma markPaid_same_but_time (t1 t2 : nat) (p_ref : sql_param) (st : string)
      (p_email : sql_param) (s : store) :
  map without_updated_at (markPaid t2 p_ref st p_email s)
  = map without_updated_at (markPaid t1 p_ref st p_email s).
Proof.
  unfold markPaid. rewrite !map_map. apply map_ext. intro r.
  destruct (sql_eq (email r) p_email); reflexivity.
Qed.

Lemma markPaid_no_match (now : nat) (p_ref : sql_param) (st : string)
      (p_email : sql_param) (s : store) :
  (forall r, In r s -> sql_eq (email r) p_email = false) ->
  markPaid now p_ref st p_email s = s.
Proof.
  intro H. unfold markPaid. rewrite <- (map_id s) at 2. apply map_ext_in.
  intros r Hin. now rewrite (H r Hin).
Qed.

Lemma rows_matching_none (p_email : sql_param) (s : store) :
  (forall r, In r s -> sql_eq (email r) p_email = false) ->
  rows_matching p_email s = 0%nat.
Proof.
  intro H. unfold rows_matching, select_by_email.
  induction s as [| r rest IH]; cbn.
  - reflexivity.
  - rewrite (H r (or_introl eq_refl)). apply IH. intros r0 Hin. apply H. now right.
Qed.

Ltac solve_delivery_effect :=
  unfold delivery_effect, at_time; run_handler;
  unfold event_field;
  repeat (first [break_negb | break_match]; cbn in * ); try discriminate; inv_pairs; cbn;
  first [ solve [left; intros; reflexivity]
        | solve [right; do 3 eexists;
                 split; [reflexivity | split; [reflexivity | split; [eassumption |]]];
                 intros; reflexivity] ].

Lemma delivery_effect_api (E : env) (req : webhook_request) :
  delivery_effect E req api_paystack_webhook.
Proof. solve_delivery_effect. Qed.

Lemma delivery_effect_app (E : env) (req : webhook_request) :
  delivery_effect E req app_paystack_webhook.
Proof. solve_delivery_effect. Qed.

Lemma redelivery_absorbed (E : env) (req : webhook_request)
      (handler : env -> webhook_request -> M unit) (t1 t2 : nat) (s : store) :
  delivery_effect E req handler ->
  final_table (handler (at_time E t2) req) (final_table (handler (at_time E t1) req) s)
  = final_table (handler (at_time E t2) req) s.
Proof.
  intros [Hsame | (ref & c & em & _ & _ & _ & Hmark)].
  - now rewrite !Hsame.
  - rewrite !Hmark. apply markPaid_absorbs.
Qed.

(** C7. markPaid applied twice with the same reference and email gives
    the table one application gives: the second application absorbs the
    first, the two results differ at most in updated_at when the times
    differ, the rows keep their emails in their places (none is added or
    dropped), and the rows of the email are paid with the reference.  The
    same holds for a whole delivery: handling an event again, later,
    leaves the table that one handling leaves. *)
Theorem C7_markPaid_idempotent :
  forall (t1 t2 : nat) (p_ref p_email : sql_param) (s : store)
         (E : env) (req : webhook_request),
    markPaid t2 p_ref "paid" p_email (markPaid t1 p_ref "paid" p_email s)
    = markPaid t2 p_ref "paid" p_email s
    /\ map without_updated_at (markPaid t2 p_ref "paid" p_email
                                        (markPaid t1 p_ref "paid" p_email s))
       = map without_updated_at (markPaid t1 p_ref "paid" p_email s)
    /\ map email (markPaid t2 p_ref "paid" p_email (markPaid t1 p_ref "paid" p_email s))
       = map email s
    /\ (forall r,
           In r (markPaid t2 p_ref "paid" p_email (markPaid t1 p_ref "paid" p_email s)) ->
           sql_eq (email r) p_email = true ->
           status r = "paid" /\ payment_ref r = p_ref)
    /\ final_table (api_paystack_webhook (at_time E t2) req)
                   (final_table (api_paystack_webhook (at_time E t1) req) s)
       = final_table (api_paystack_webhook (at_time E t2) req) s
    /\ final_table (app_paystack_webhook (at_time E t2) req)
                   (final_table (app_paystack_webhook (at_time E t1) req) s)
       = final_table (app_paystack_webhook (at_time E t2) req) s.
Proof.
  intros t1 t2 p_ref p_email s E req.
  split; [apply markPaid_absorbs |].
  split; [rewrite markPaid_absorbs; apply markPaid_same_but_time |].
  split; [now rewrite !markPaid_emails |].
  split.
  - intros r Hin He. rewrite markPaid_absorbs in Hin.
    destruct (markPaid_rows t2 p_ref "paid" p_email s r Hin He) as (Hs & Hp & _). auto.
  - split; apply redelivery_absorbed;
      [apply delivery_effect_api | apply delivery_effect_app].
Qed.

Lemma C7_markPaid_idempotent_witness :
  markPaid 9 (Some "ref1") "paid" (Some "a@x.com")
           (markPaid 7 (Some "ref1") "paid" (Some "a@x.com") [Scenario.pending_row])
  = [mkRegistration "a@x.com" "A" 50000 COHORT "paid" (Some "ref1") 1 9]
  /\ status (mkRegistration "a@x.com" "A" 50000 COHORT "paid" (Some "ref1") 1 9) = "paid".
Proof.
  destruct (C7_markPaid_idempotent 7 9 (Some "ref1") (Some "a@x.com") [Scenario.pending_row]
              (Scenario.provider "ref1" 5000000)
              (Scenario.signed (Scenario.charge "ref1" 5000000)))
    as (Habsorb & _ & _ & Hrows & _).
  split.
  - rewrite Habsorb. reflexivity.
  - apply (Hrows (mkRegistration "a@x.com" "A" 50000 COHORT "paid" (Some "ref1") 1 9)).
    + left. reflexivity.
    + reflexivity.
Defined.

Lemma no_row_no_match (e : string) (s : store) :
  (forall r, In r s -> email r <> e) ->
  forall r, In r s -> sql_eq (email r) (Some e) = false.
Proof.
  intros H r Hin. cbn. apply String.eqb_neq. now apply H.
Qed.

Lemma delivery_without_row (E : env) (req : webhook_request)
      (handler : env -> webhook_request -> M unit) (customer : value) (e : string)
      (s : store) :
  delivery_effect E req handler ->
  event_field (body req) "customer" = Some customer ->
  get_prop customer "email" = Some (VStr e) ->
  (forall r, In r s -> email r <> e) ->
  final_table (handler (at_time E (NOW E)) req) s = s.
Proof.
  intros [Hsame | (ref & c & em & _ & Hc & Hem & Hmark)] Hcust Hemail Hno.
  - apply Hsame.
  - rewrite Hmark. rewrite Hcust in Hc. inversion Hc. subst c.
    rewrite Hemail in Hem. inversion Hem. subst em.
    apply markPaid_no_match. now apply no_row_no_match.
Qed.

(** C8. When no row has the email, markPaid changes nothing and is no
    error: the table is the same, the UPDATE touches no row, the database
    call returns normally (the statement returns no row in any case), and
    a webhook delivery for that email leaves the table as it was in both
    handlers. *)
Theorem C8_markPaid_without_row_is_noop :
  forall (E : env) (p_ref : sql_param) (e : string) (s : store),
    (forall r, In r s -> email r <> e) ->
    markPaid (NOW E) p_ref "paid" (Some e) s = s
    /\ rows_matching (Some e) s = 0%nat
    /\ (db_fails E Update = false ->
        run (query_write E Update (markPaid (NOW E) p_ref "paid" (Some e))) s
        = (Ok tt, mkWorld s None false [Query Update]))
    /\ (forall req customer,
           event_field (body req) "customer" = Some customer ->
           get_prop customer "email" = Some (VStr e) ->
           final_table (api_paystack_webhook E req) s = s
           /\ final_table (app_paystack_webhook E req) s = s).
Proof.
  intros E p_ref e s Hno.
  pose proof (no_row_no_match e s Hno) as Hf.
  split; [now apply markPaid_no_match |].
  split; [now apply rows_matching_none |].
  split.
  - intro Hok. unfold run, start, query_write, db_call, set_view, view. cbn -[markPaid].
    rewrite Hok. cbn -[markPaid]. now rewrite markPaid_no_match.
  - intros req customer Hc Hem.
    assert (HE : at_time E (NOW E) = E) by (destruct E; reflexivity).
    split.
    + rewrite <- HE at 1.
      now apply (delivery_without_row E req api_paystack_webhook customer e s
                   (delivery_effect_api E req)).
    + rewrite <- HE at 1.
      now apply (delivery_without_row E req app_paystack_webhook customer e s
                   (delivery_effect_app E req)).
Qed.

Lemma C8_markPaid_without_row_is_noop_witness :
  markPaid 7 (Some "ref1") "paid" (Some "nobody@x.com") [Scenario.pending_row]
  = [Scenario.pending_row]
  /\ rows_matching (Some "nobody@x.com") [Scenario.pending_row] = 0%nat.
Proof.
  assert (Hno : forall r, In r [Scenario.pending_row] -> email r <> "nobody@x.com").
  { intros r [Hr | []]. subst r. discriminate. }
  destruct (C8_markPaid_without_row_is_noop (Scenario.provider "ref1" 5000000)
              (Some "ref1") "nobody@x.com" [Scenario.pending_row] Hno)
    as (Hsame & Hcount & _).
  split; [exact Hsame | exact Hcount].
Defined.

(** ** The initialization handlers, case by case *)

Ltac destruct_body b :=
  let e := fresh "be" in let a := fresh "ba" in let f := fresh "bf" in
  destruct b as [e a f]; cbn [b_email b_amount b_fullName] in *.

Lemma invalid_body_rejected (b : init_body) :
  invalid_body b ->
  (missing_string (b_email b) || missing_number (b_amount b)
   || missing_string (b_fullName b)
   || match b_amount b with Some a => (a <=? 0)%Z | None => false end)%bool = true.
Proof.
  unfold invalid_body, missing_string, missing_number.
  intros [H | [H | [H | [(a & H & Ha) | [H | H]]]]]; rewrite H; cbn;
    rewrite ?orb_true_r; try reflexivity.
  apply Z.leb_le in Ha. rewrite Ha. now rewrite !orb_true_r.
Qed.

(** X1. A body with a missing or empty email or full name, or with a
    missing, zero or negative amount, gets the response 400 and nothing
    else happens: no database call, no provider call.  In the serverless
    handler the two headers of the CORS middleware come first. *)
Theorem X1_invalid_body_answers_400_only :
  forall (E : env) (req : init_request) (s : store),
    invalid_body (i_body req) ->
    effects (app_initialize_payment E req) s = bad_request
    /\ final_table (app_initialize_payment E req) s = s
    /\ (i_method req = "POST" ->
        missing_string (PAYSTACK_SECRET_KEY E) = false ->
        effects (api_initialize_payment E req) s = (cors_headers ++ bad_request)%list
        /\ final_table (api_initialize_payment E req) s = s).
Proof.
  intros E req s Hinv. apply invalid_body_rejected in Hinv.
  assert (Hcore : forall authorization,
             effects (initialize_from_body E authorization (i_body req)) s = bad_request
             /\ final_table (initialize_from_body E authorization (i_body req)) s = s).
  { intro authorization.
    unfold effects, final_table, run, start, initialize_from_body.
    rewrite Hinv. cbn. auto. }
  unfold app_initialize_payment.
  split; [apply Hcore | split; [apply Hcore |]].
  intros Hm Hk. destruct (configured_key E Hk) as (key & Hkey & Hne).
  rewrite (api_initialize_payment_post_table E req s key Hm Hkey Hne),
    (api_initialize_payment_post_effects E req s key Hm Hkey Hne).
  destruct (Hcore (bearer key)) as [-> ->]. auto.
Qed.

Lemma X1_invalid_body_answers_400_only_witness :
  effects (app_initialize_payment (Scenario.provider "ref1" 5000000) (Scenario.submit (-5)))
          [Scenario.pending_row] = bad_request
  /\ effects (api_initialize_payment (Scenario.provider "ref1" 5000000) (Scenario.submit (-5)))
             [Scenario.pending_row] = (cors_headers ++ bad_request)%list.
Proof.
  assert (Hinv : invalid_body (i_body (Scenario.submit (-5)))).
  { right. right. right. left. exists (-5). split; [reflexivity | discriminate]. }
  destruct (X1_invalid_body_answers_400_only
              (Scenario.provider "ref1" 5000000) (Scenario.submit (-5))
              [Scenario.pending_row] Hinv) as (Happ & _ & Hapi).
  split; [exact Happ |].
  exact (proj1 (Hapi eq_refl eq_refl)).
Defined.

(** X2. What the serverless endpoints do with a method that is not POST,
    before the configuration, the body or the signature is looked at.
    The initialization endpoint answers a preflight (OPTIONS) from the
    CORS middleware, with its headers and 204, and the handler then waits
    for ever; any other method gets the two CORS headers, the Allow header
    and 405, and the handler returns.  The webhook endpoint, which has no
    middleware, answers the Allow header and 405. *)
Theorem X2_other_methods_answered_before_anything_else :
  forall (E : env) (ireq : init_request) (wreq : webhook_request) (s : store),
    (toUpperCase (i_method ireq) = "OPTIONS" ->
     run (api_initialize_payment E ireq) s
     = (Ok Waiting, mkWorld s None false preflight_response))
    /\ (toUpperCase (i_method ireq) <> "OPTIONS" ->
        i_method ireq <> "POST" ->
        run (api_initialize_payment E ireq) s
        = (Ok Returned,
           mkWorld s None false
                   (cors_headers
                    ++ [SetHeader "Allow" "POST";
                        Respond 405 (message_body "Method Not Allowed")])%list))
    /\ (method wreq <> "POST" ->
        run (api_paystack_webhook E wreq) s
        = (Ok tt,
           mkWorld s None false
                   [SetHeader "Allow" "POST"; Respond 405 (VStr "Method Not Allowed")])).
Proof.
  intros E ireq wreq s. split; [| split].
  - intro Hop. apply String.eqb_eq in Hop.
    unfold run, start, api_initialize_payment, cors. rewrite Hop. reflexivity.
  - intros Hop Hm. apply String.eqb_neq in Hop, Hm.
    unfold run, start, api_initialize_payment, cors. rewrite Hop, Hm. reflexivity.
  - intro Hm. apply String.eqb_neq in Hm.
    unfold run, start, api_paystack_webhook. rewrite Hm. reflexivity.
Qed.

Lemma X2_other_methods_answered_before_anything_else_witness :
  fst (run (api_initialize_payment Scenario.unconfigured
              (mkInitRequest "OPTIONS" (mkInitBody None None None)))
           [Scenario.pending_row]) = Ok Waiting
  /\ responses (effects (api_initialize_payment Scenario.unconfigured
                           (mkInitRequest "GET" (mkInitBody None None None)))
                        [Scenario.pending_row]) = [405]
  /\ responses (effects (api_paystack_webhook Scenario.unconfigured
                           (mkWebhookRequest "GET" [] "" VUndef))
                        [Scenario.pending_row]) = [405].
Proof.
  destruct (X2_other_methods_answered_before_anything_else
              Scenario.unconfigured (mkInitRequest "OPTIONS" (mkInitBody None None None))
              (mkWebhookRequest "GET" [] "" VUndef) [Scenario.pending_row])
    as (Hpre & _ & Hhook).
  destruct (X2_other_methods_answered_before_anything_else
              Scenario.unconfigured (mkInitRequest "GET" (mkInitBody None None None))
              (mkWebhookRequest "GET" [] "" VUndef) [Scenario.pending_row])
    as (_ & Hget & _).
  split; [| split].
  - rewrite (Hpre eq_refl). reflexivity.
  - unfold effects. rewrite Hget; [reflexivity | discriminate | discriminate].
  - unfold effects. rewrite Hhook; [reflexivity | discriminate].
Defined.

Lemma initialize_commits_then_calls
      (E : env) (authorization : string) (b : init_body) (s : store)
      (e f : string) (a : Z) (data : value) :
  valid_body b e f a ->
  healthy E ->
  not_paid e s ->
  axios_post E initialize_url (initialize_payload e f a) authorization = Ok data ->
  let t := effects (initialize_from_body E authorization b) s in
  filter is_respond t = [Respond 200 data]
  /\ filter is_http_post t
     = [HttpPost initialize_url (initialize_payload e f a) authorization]
  /\ preceded_by is_commit is_http_post t = true
  /\ final_table (initialize_from_body E authorization b) s = upsertPending (NOW E) e f a s.
Proof.
  intros Hv Hh Hnp Hg.
  apply valid_body_passes in Hv. destruct Hv as (He & Ha & Hf & Hne & Hnf & Hz & Hle).
  unfold not_paid, upsertPending, findByEmail, select_by_email in *. cbn in Hnp.
  cbv zeta. run_initialize.
  rewrite He, Ha, Hf. cbn. rewrite Hne, Hnf, Hz, Hle. cbn.
  rewrite ?Hh. cbn.
  destruct (filter (fun r => (email r =? e)%string) s) as [| first rest] eqn:Hsel; cbn.
  - rewrite ?Hh. cbn. rewrite Hg. cbn. auto.
  - destruct (status first =? "paid")%string eqn:Hp.
    + apply String.eqb_eq in Hp. exfalso. now apply (Hnp first).
    + cbn. rewrite ?Hh. cbn. rewrite Hg. cbn. auto.
Qed.

(** X3. A valid request for an email that is not paid, with the database
    and the provider answering: the handler commits the pending
    registration, then makes one provider call, whose amount is the
    submitted amount times 100 and whose metadata carries the submitted
    amount, and answers 200 with the provider's data as received.  The
    serverless handler does the same after the two CORS headers. *)
Theorem X3_initialization_commits_then_calls_provider :
  forall (E : env) (req : init_request) (s : store) (e f : string) (a : Z) (data : value),
    valid_body (i_body req) e f a ->
    healthy E ->
    not_paid e s ->
    (forall authorization,
        axios_post E initialize_url (initialize_payload e f a) authorization = Ok data) ->
    let t := effects (app_initialize_payment E req) s in
    filter is_respond t = [Respond 200 data]
    /\ filter is_http_post t
       = [HttpPost initialize_url (initialize_payload e f a) (bearer (env_key_text E))]
    /\ preceded_by is_commit is_http_post t = true
    /\ final_table (app_initialize_payment E req) s = upsertPending (NOW E) e f a s
    /\ get_prop (initialize_payload e f a) "amount" = Some (VNum (a * 100))
    /\ (exists metadata,
           get_prop (initialize_payload e f a) "metadata" = Some metadata
           /\ get_prop metadata "amount_naira" = Some (VNum a))
    /\ (i_method req = "POST" ->
        missing_string (PAYSTACK_SECRET_KEY E) = false ->
        effects (api_initialize_payment E req) s = (cors_headers ++ t)%list
        /\ final_table (api_initialize_payment E req) s = upsertPending (NOW E) e f a s).
Proof.
  intros E req s e f a data Hv Hh Hnp Hg. cbv zeta.
  destruct (initialize_commits_then_calls E (bearer (env_key_text E)) (i_body req) s e f a
              data Hv Hh Hnp (Hg _)) as (Hr & Hp & Hord & Htab).
  unfold app_initialize_payment.
  split; [exact Hr |]. split; [exact Hp |]. split; [exact Hord |]. split; [exact Htab |].
  split; [reflexivity |].
  split; [eexists; split; reflexivity |].
  intros Hm Hk. destruct (configured_key E Hk) as (key & Hkey & Hne).
  assert (Htext : env_key_text E = key) by (unfold env_key_text; now rewrite Hkey).
  rewrite Htext in Htab |- *.
  rewrite (api_initialize_payment_post_table E req s key Hm Hkey Hne),
    (api_initialize_payment_post_effects E req s key Hm Hkey Hne).
  split; [reflexivity | exact Htab].
Qed.

Lemma X3_initialization_commits_then_calls_provider_witness :
  let E := Deployment.reachable in
  filter is_respond (effects (app_initialize_payment E (Scenario.submit 50000)) [])
  = [Respond 200 Deployment.initialized]
  /\ final_table (app_initialize_payment E (Scenario.submit 50000)) []
     = [mkRegistration "a@x.com" "A" 50000 COHORT "pending" None 7 7]
  /\ get_prop (initialize_payload "a@x.com" "A" 50000) "amount" = Some (VNum 5000000).
Proof.
  cbv zeta.
  assert (Hv : valid_body (i_body (Scenario.submit 50000)) "a@x.com" "A" 50000).
  { unfold valid_body. cbn. repeat split; try reflexivity; discriminate. }
  assert (Hh : healthy Deployment.reachable) by (intro op; reflexivity).
  assert (Hnp : not_paid "a@x.com" []) by (intros r Hr; discriminate Hr).
  destruct (X3_initialization_commits_then_calls_provider
              Deployment.reachable (Scenario.submit 50000) [] "a@x.com" "A" 50000
              Deployment.initialized Hv Hh Hnp (fun _ => eq_refl))
    as (Hr & _ & _ & Htab & Hamount & _).
  split; [exact Hr |]. split; [exact Htab | exact Hamount].
Defined.

Lemma transaction_failure_rolls_back
      (E : env) (authorization : string) (b : init_body) (s : store)
      (e f : string) (a : Z) :
  valid_body b e f a ->
  not_paid e s ->
  transaction_fails E e s ->
  transaction_rolled_back E s (initialize_from_body E authorization b).
Proof.
  intros Hv Hnp Hfail. unfold transaction_rolled_back.
  apply valid_body_passes in Hv. destruct Hv as (He & Ha & Hf & Hne & Hnf & Hz & Hle).
  unfold transaction_fails, write_op, not_paid, findByEmail, select_by_email in *.
  cbn in Hnp, Hfail.
  cbv zeta. run_initialize.
  rewrite He, Ha, Hf. cbn. rewrite Hne, Hnf, Hz, Hle. cbn.
  destruct (filter (fun r => (email r =? e)%string) s) as [| first rest] eqn:Hsel;
    [| assert (Hp : (status first =? "paid")%string = false)
         by (apply String.eqb_neq; now apply (Hnp first))];
    cbn in *; rewrite ?Hp; cbn;
    repeat (break_match; cbn in * ; rewrite ?Hp in * ; cbn in * );
    try discriminate; inv_pairs; cbn;
    try solve [exfalso; intuition congruence];
    (split; [reflexivity |]); (split; [reflexivity |]);
    (split; [intros [H | H]; first [reflexivity | congruence] |]);
    intros H1 H2; first [congruence | split; [reflexivity | eexists; reflexivity]].
Qed.

(** X4. When a call of the transaction fails (the connection, BEGIN, the
    SELECT, the UPDATE or INSERT, or COMMIT), nothing of the transaction
    stays in the table and the provider is not called.  The handler
    answers 500, unless the ROLLBACK of the error handler fails as well:
    then it throws and no response is sent. *)
Theorem X4_failed_transaction_leaves_table_and_skips_provider :
  forall (E : env) (req : init_request) (s : store) (e f : string) (a : Z),
    valid_body (i_body req) e f a ->
    not_paid e s ->
    transaction_fails E e s ->
    transaction_rolled_back E s (app_initialize_payment E req)
    /\ (i_method req = "POST" ->
        missing_string (PAYSTACK_SECRET_KEY E) = false ->
        transaction_rolled_back E s (api_initialize_payment E req)).
Proof.
  intros E req s e f a Hv Hnp Hfail. split.
  - now apply (transaction_failure_rolls_back E (bearer (env_key_text E)) (i_body req)
                 s e f a).
  - intros Hm Hk. destruct (configured_key E Hk) as (key & Hkey & Hne).
    destruct (transaction_failure_rolls_back E (bearer key) (i_body req) s e f a
                Hv Hnp Hfail) as (Htab & Hpost & Hanswer & Hthrow).
    unfold transaction_rolled_back.
    rewrite (api_initialize_payment_post_table E req s key Hm Hkey Hne),
      (api_initialize_payment_post_effects E req s key Hm Hkey Hne),
      (api_initialize_payment_post E req s key Hm Hkey Hne).
    unfold cors_headers. cbn [app existsb responses flat_map is_http_post orb fst].
    split; [exact Htab |]. split; [exact Hpost |]. split; [exact Hanswer |].
    intros Hc Hr. destruct (Hthrow Hc Hr) as (Hnone & err & Herr).
    split; [exact Hnone |]. exists err. now rewrite Herr.
Qed.

Lemma X4_failed_transaction_leaves_table_and_skips_provider_witness :
  final_table (app_initialize_payment Deployment.commit_fails (Scenario.submit 60000))
              [Scenario.pending_row] = [Scenario.pending_row]
  /\ responses (effects (app_initialize_payment Deployment.commit_fails (Scenario.submit 60000))
                        [Scenario.pending_row]) = [500].
Proof.
  assert (Hv : valid_body (i_body (Scenario.submit 60000)) "a@x.com" "A" 60000).
  { unfold valid_body. cbn. repeat split; try reflexivity; discriminate. }
  assert (Hnp : not_paid "a@x.com" [Scenario.pending_row]).
  { intros r Hr. cbn in Hr. inversion Hr. discriminate. }
  assert (Hfail : transaction_fails Deployment.commit_fails "a@x.com" [Scenario.pending_row]).
  { unfold transaction_fails. do 4 right. reflexivity. }
  destruct (X4_failed_transaction_leaves_table_and_skips_provider
              Deployment.commit_fails (Scenario.submit 60000) [Scenario.pending_row]
              "a@x.com" "A" 60000 Hv Hnp Hfail) as [(Htab & _ & Hresp & _) _].
  split; [exact Htab |]. apply Hresp. right. reflexivity.
Defined.

(** ** Clients and responses *)

Ltac solve_initialize_cases b :=
  unfold client_returned, transaction_closed, answers_once; run_initialize;
  destruct b as [[?e |] [?a |] [?f |]]; cbn; rewrite ?orb_true_r; cbn;
  repeat (break_match; cbn in * ); try discriminate; inv_pairs; cbn.

Lemma initialize_from_body_winds_up (E : env) (authorization : string) (b : init_body)
      (s : store) :
  client_returned (initialize_from_body E authorization b) s
  /\ (db_fails E RollbackOnError = false ->
      transaction_closed (initialize_from_body E authorization b) s)
  /\ (List.length (responses (effects (initialize_from_body E authorization b) s)) <= 1)%nat
  /\ (db_fails E Connect = true \/ db_fails E RollbackOnError = false ->
      answers_once (initialize_from_body E authorization b) s).
Proof.
  solve_initialize_cases b.
  all: split; [reflexivity |].
  all: split; [intros H; first [reflexivity | congruence] |].
  all: split; [lia |].
  all: intros [H | H]; try congruence; (split; [eexists; reflexivity | reflexivity]).
Qed.

(** The ways the serverless initialization handler goes: the preflight,
    an answer of its own after the CORS headers (405 or 500), or the
    common part. *)
Lemma api_initialize_payment_cases (E : env) (req : init_request) (s : store) :
  run (api_initialize_payment E req) s = (Ok Waiting, mkWorld s None false preflight_response)
  \/ (exists code body,
         run (api_initialize_payment E req) s
         = (Ok Returned,
            mkWorld s None false
                    (cors_headers ++ [SetHeader "Allow" "POST"; Respond code body])%list)
         \/ run (api_initialize_payment E req) s
            = (Ok Returned,
               mkWorld s None false
                       (cors_headers
                        ++ [Log "error" "PAYSTACK_SECRET_KEY is not defined!";
                            Respond code body])%list))
  \/ (exists key,
         i_method req = "POST" /\ PAYSTACK_SECRET_KEY E = Some key /\ key <> "").
Proof.
  destruct (toUpperCase (i_method req) =? "OPTIONS")%string eqn:Hop.
  - left. unfold run, start, api_initialize_payment, cors. rewrite Hop. reflexivity.
  - right. destruct (i_method req =? "POST")%string eqn:Hm.
    + destruct (PAYSTACK_SECRET_KEY E) as [key |] eqn:Hk.
      * destruct (key =? "")%string eqn:Hne.
        -- left. do 2 eexists. right.
           unfold run, start, api_initialize_payment, cors, missing_string.
           rewrite Hop, Hm, Hk, Hne. reflexivity.
        -- right. exists key. apply String.eqb_eq in Hm. apply String.eqb_neq in Hne. auto.
      * left. do 2 eexists. right.
        unfold run, start, api_initialize_payment, cors, missing_string.
        rewrite Hop, Hm, Hk. reflexivity.
    + left. do 2 eexists. left.
      unfold run, start, api_initialize_payment, cors. rewrite Hop, Hm. reflexivity.
Qed.

Lemma api_initialize_payment_winds_up (E : env) (req : init_request) (s : store) :
  client_returned (api_initialize_payment E req) s
  /\ (db_fails E RollbackOnError = false ->
      transaction_closed (api_initialize_payment E req) s)
  /\ (List.length (responses (effects (api_initialize_payment E req) s)) <= 1)%nat.
Proof.
  unfold client_returned, transaction_closed, effects.
  destruct (api_initialize_payment_cases E req s)
    as [-> | [(code & body & [-> | ->]) | (key & Hm & Hk & Hne)]];
    try (cbn; repeat split; lia).
  rewrite (api_initialize_payment_post E req s key Hm Hk Hne). cbn [snd client tx trace].
  destruct (initialize_from_body_winds_up E (bearer key) (i_body req) s)
    as (Hc & Ht & Hl & _).
  split; [exact Hc |]. split; [exact Ht |].
  unfold cors_headers. cbn [app responses flat_map]. exact Hl.
Qed.

Lemma webhook_handlers_wind_up (E : env) (req : webhook_request) (s : store) :
  (client_returned (api_paystack_webhook E req) s
   /\ transaction_closed (api_paystack_webhook E req) s)
  /\ (client_returned (app_paystack_webhook E req) s
      /\ transaction_closed (app_paystack_webhook E req) s).
Proof.
  split; unfold client_returned, transaction_closed; run_handler;
    repeat (first [break_negb | break_match]; cbn in * ); try discriminate; inv_pairs; cbn;
    split; reflexivity.
Qed.

Lemma failed_rollback_leaves_transaction_open
      (E : env) (authorization : string) (b : init_body) (s : store)
      (e f : string) (a : Z) :
  valid_body b e f a ->
  db_fails E Connect = false ->
  db_fails E Begin = false ->
  db_fails E Select = true ->
  db_fails E RollbackOnError = true ->
  tx (snd (run (initialize_from_body E authorization b) s)) = Some s
  /\ client (snd (run (initialize_from_body E authorization b) s)) = false.
Proof.
  intros Hv Hc Hb Hs Hr.
  apply valid_body_passes in Hv. destruct Hv as (He & Ha & Hf & Hne & Hnf & Hz & Hle).
  run_initialize.
  rewrite He, Ha, Hf. cbn. rewrite Hne, Hnf, Hz, Hle. cbn.
  rewrite Hc. cbn. rewrite Hb. cbn. rewrite Hs. cbn. rewrite Hr. cbn. auto.
Qed.

(** X5. Whatever the request, the database and the provider do, each of
    the four handlers ends with no client checked out of the pool.  The
    webhook handlers never open a transaction.  The initialization
    handlers end with their transaction closed when the ROLLBACK of the
    catch block succeeds; when a statement and that ROLLBACK both fail,
    the client goes back to the pool with the transaction still open. *)
Theorem X5_client_always_released :
  forall (E : env) (ireq : init_request) (wreq : webhook_request) (s : store),
    (client_returned (api_initialize_payment E ireq) s
     /\ client_returned (app_initialize_payment E ireq) s
     /\ client_returned (api_paystack_webhook E wreq) s
     /\ client_returned (app_paystack_webhook E wreq) s)
    /\ (transaction_closed (api_paystack_webhook E wreq) s
        /\ transaction_closed (app_paystack_webhook E wreq) s)
    /\ (db_fails E RollbackOnError = false ->
        transaction_closed (api_initialize_payment E ireq) s
        /\ transaction_closed (app_initialize_payment E ireq) s)
    /\ (forall e f a,
           valid_body (i_body ireq) e f a ->
           db_fails E Connect = false ->
           db_fails E Begin = false ->
           db_fails E Select = true ->
           db_fails E RollbackOnError = true ->
           tx (snd (run (app_initialize_payment E ireq) s)) = Some s).
Proof.
  intros E ireq wreq s.
  destruct (api_initialize_payment_winds_up E ireq s) as (Hc1 & Ht1 & _).
  destruct (initialize_from_body_winds_up E (bearer (env_key_text E)) (i_body ireq) s)
    as (Hc2 & Ht2 & _).
  destruct (webhook_handlers_wind_up E wreq s) as ((Hc3 & Ht3) & (Hc4 & Ht4)).
  split; [repeat split; assumption |].
  split; [split; assumption |].
  split; [intro Hr; split; [now apply Ht1 | now apply Ht2] |].
  intros e f a Hv Hc Hb Hs Hr.
  exact (proj1 (failed_rollback_leaves_transaction_open
                  E (bearer (env_key_text E)) (i_body ireq) s e f a Hv Hc Hb Hs Hr)).
Qed.

Lemma X5_client_always_released_witness :
  tx (snd (run (app_initialize_payment Deployment.select_and_rollback_fail
                                       (Scenario.submit 60000))
               [Scenario.pending_row]))
  = Some [Scenario.pending_row]
  /\ transaction_closed (app_initialize_payment Deployment.commit_fails
                                                (Scenario.submit 60000))
                        [Scenario.pending_row].
Proof.
  assert (Hv : valid_body (i_body (Scenario.submit 60000)) "a@x.com" "A" 60000).
  { unfold valid_body. cbn. repeat split; try reflexivity; discriminate. }
  destruct (X5_client_always_released
              Deployment.select_and_rollback_fail (Scenario.submit 60000)
              (Scenario.signed (Scenario.charge "ref1" 5000000)) [Scenario.pending_row])
    as (_ & _ & _ & Hopen).
  destruct (X5_client_always_released
              Deployment.commit_fails (Scenario.submit 60000)
              (Scenario.signed (Scenario.charge "ref1" 5000000)) [Scenario.pending_row])
    as (_ & _ & Hclosed & _).
  split.
  - exact (Hopen "a@x.com" "A" 60000 Hv eq_refl eq_refl eq_refl eq_refl).
  - exact (proj2 (Hclosed eq_refl)).
Defined.

Ltac solve_webhook_answers :=
  unfold answers_once, serializable; run_handler;
  repeat (first [break_negb | break_match]; cbn in * ); try discriminate; inv_pairs; cbn;
  (split; [lia |]);
  intros; repeat match goal with
                 | H : _ /\ _ |- _ => destruct H
                 | H : exists _, _ |- _ => destruct H
                 end;
  try congruence; (split; [eexists; reflexivity | reflexivity]).

Lemma api_paystack_webhook_answers (E : env) (req : webhook_request) (s : store) :
  (List.length (responses (effects (api_paystack_webhook E req) s)) <= 1)%nat
  /\ (serializable req -> answers_once (api_paystack_webhook E req) s).
Proof. solve_webhook_answers. Qed.

Lemma app_paystack_webhook_answers (E : env) (req : webhook_request) (s : store) :
  (List.length (responses (effects (app_paystack_webhook E req) s)) <= 1)%nat
  /\ (serializable req /\ (exists key, PAYSTACK_SECRET_KEY E = Some key) ->
      answers_once (app_paystack_webhook E req) s).
Proof. solve_webhook_answers. Qed.

(** X6. No handler sends a second response.  The serverless webhook
    handler, given a body that can be serialized, returns normally with
    one response whatever the event, the provider and the database do;
    so does the Express one when the key is configured.  The Express
    initialization route returns normally with one response unless the
    ROLLBACK of its catch block fails.  Initialization requests are taken
    with a body object, as the Express body parser provides one; the
    serverless handler given no body throws at the destructuring, before
    any response, and on a preflight it never returns, so nothing is
    stated about how it ends. *)
Theorem X6_one_response_and_no_escaping_error :
  forall (E : env) (ireq : init_request) (wreq : webhook_request) (s : store),
    (List.length (responses (effects (api_initialize_payment E ireq) s)) <= 1
     /\ List.length (responses (effects (app_initialize_payment E ireq) s)) <= 1
     /\ List.length (responses (effects (api_paystack_webhook E wreq) s)) <= 1
     /\ List.length (responses (effects (app_paystack_webhook E wreq) s)) <= 1)%nat
    /\ (serializable wreq -> answers_once (api_paystack_webhook E wreq) s)
    /\ (serializable wreq -> (exists key, PAYSTACK_SECRET_KEY E = Some key) ->
        answers_once (app_paystack_webhook E wreq) s)
    /\ (db_fails E Connect = true \/ db_fails E RollbackOnError = false ->
        answers_once (app_initialize_payment E ireq) s).
Proof.
  intros E ireq wreq s.
  destruct (api_initialize_payment_winds_up E ireq s) as (_ & _ & Hi1).
  destruct (initialize_from_body_winds_up E (bearer (env_key_text E)) (i_body ireq) s)
    as (_ & _ & Hj1 & Hj2).
  destruct (api_paystack_webhook_answers E wreq s) as (Hw1 & Hw2).
  destruct (app_paystack_webhook_answers E wreq s) as (Hx1 & Hx2).
  split; [repeat split; assumption |].
  split; [exact Hw2 |].
  split; [intros Hs Hk; apply Hx2; now split |].
  exact Hj2.
Qed.

Lemma X6_one_response_and_no_escaping_error_witness :
  answers_once (api_paystack_webhook (Scenario.provider "ref1" 5000000)
                                     (Scenario.signed (Scenario.charge "ref1" 5000000)))
               [Scenario.pending_row]
  /\ answers_once (app_paystack_webhook (Scenario.provider "ref1" 5000000)
                                        (Scenario.signed (Scenario.charge "ref1" 5000000)))
                  [Scenario.pending_row]
  /\ answers_once (app_initialize_payment (Scenario.provider "ref1" 5000000)
                                          (Scenario.submit 60000))
                  [Scenario.pending_row].
Proof.
  assert (Hs : serializable (Scenario.signed (Scenario.charge "ref1" 5000000))).
  { eexists. reflexivity. }
  destruct (X6_one_response_and_no_escaping_error
              (Scenario.provider "ref1" 5000000) (Scenario.submit 60000)
              (Scenario.signed (Scenario.charge "ref1" 5000000)) [Scenario.pending_row])
    as (_ & Hapi & Happ & Hinit).
  split; [exact (Hapi Hs) |].
  split; [apply (Happ Hs); eexists; reflexivity |].
  apply Hinit. right. reflexivity.
Defined.

(** ** Rows of other emails, uniqueness of emails, paid rows *)

Lemma valid_of_checks (e f : string) (a : Z) :
  ((e =? "")%string || (a =? 0)%Z || (f =? "")%string || (a <=? 0)%Z)%bool = false ->
  valid_body (mkInitBody (Some e) (Some a) (Some f)) e f a.
Proof.
  intro H.
  apply orb_false_elim in H. destruct H as [H Hle].
  apply orb_false_elim in H. destruct H as [H Hf].
  apply orb_false_elim in H. destruct H as [He Ha].
  unfold valid_body. cbn.
  apply String.eqb_neq in He, Hf. apply Z.leb_gt in Hle.
  repeat split; auto.
Qed.

(** The table after an initialization is the table before, or the
    pending registration written for a valid body and an email that is
    not paid. *)
Lemma initialize_from_body_table (E : env) (authorization : string) (b : init_body)
      (s : store) :
  final_table (initialize_from_body E authorization b) s = s
  \/ exists e f a,
      valid_body b e f a /\ not_paid e s
      /\ final_table (initialize_from_body E authorization b) s
         = upsertPending (NOW E) e f a s.
Proof.
  run_initialize.
  destruct b as [[e |] [a |] [f |]]; cbn; rewrite ?orb_true_r; cbn;
    repeat (break_match; cbn in * ); try discriminate; inv_pairs; cbn;
    first [ solve [left; reflexivity]
          | right; do 3 eexists;
            split; [eapply valid_of_checks; eassumption |];
            unfold not_paid, upsertPending, findByEmail, select_by_email; cbn;
            match goal with H : filter _ _ = _ |- _ => rewrite H end; cbn;
            split; [| reflexivity];
            intros ?r Hr; try discriminate Hr; inversion Hr; subst;
            now apply String.eqb_neq ].
Qed.

Lemma api_initialize_payment_table (E : env) (req : init_request) (s : store) :
  final_table (api_initialize_payment E req) s = s
  \/ exists e f a,
      valid_body (i_body req) e f a /\ not_paid e s
      /\ final_table (api_initialize_payment E req) s = upsertPending (NOW E) e f a s.
Proof.
  destruct (api_initialize_payment_cases E req s)
    as [H | [(code & body & [H | H]) | (key & Hm & Hk & Hne)]];
    try (left; unfold final_table; rewrite H; reflexivity).
  rewrite (api_initialize_payment_post_table E req s key Hm Hk Hne).
  apply initialize_from_body_table.
Qed.

Lemma upsertPending_keeps_others (now : nat) (e f : string) (a : Z) (s : store)
      (r : registration) :
  In r s -> email r <> e -> In r (upsertPending now e f a s).
Proof.
  intros Hin Hne. unfold upsertPending.
  destruct (select_by_email (Some e) s).
  - unfold insert_registration. apply in_or_app. now left.
  - unfold update_registration. apply in_map_iff. exists r. split; [| exact Hin].
    cbn. apply String.eqb_neq in Hne. now rewrite Hne.
Qed.

Lemma markPaid_keeps_others (now : nat) (p_ref : sql_param) (st : string)
      (p_email : sql_param) (s : store) (r : registration) :
  In r s -> sql_eq (email r) p_email = false -> In r (markPaid now p_ref st p_email s).
Proof.
  intros Hin Hne. unfold markPaid. apply in_map_iff. exists r. split; [| exact Hin].
  now rewrite Hne.
Qed.

Lemma update_registration_emails (now : nat) (f st : string) (a : Z) (p : sql_param)
      (s : store) :
  map email (update_registration now f a st p s) = map email s.
Proof.
  unfold update_registration. rewrite map_map. apply map_ext. intro r.
  destruct (sql_eq (email r) p); reflexivity.
Qed.

Lemma select_nil_not_in (e : string) (s : store) :
  select_by_email (Some e) s = [] -> ~ In e (map email s).
Proof.
  intros Hnil Hin. apply in_map_iff in Hin. destruct Hin as (r & He & Hr).
  now apply (select_nil_no_row e s r Hnil Hr).
Qed.

Lemma upsertPending_unique (now : nat) (e f : string) (a : Z) (s : store) :
  NoDup (map email s) -> NoDup (map email (upsertPending now e f a s)).
Proof.
  intro Hnd. unfold upsertPending.
  destruct (select_by_email (Some e) s) eqn:Hsel.
  - unfold insert_registration. rewrite map_app. cbn.
    apply NoDup_app.
    + exact Hnd.
    + constructor; [intros [] | constructor].
    + intros x Hx [Hxe | []]. subst x. now apply (select_nil_not_in e s Hsel).
  - now rewrite update_registration_emails.
Qed.

Lemma findByEmail_unique (s : store) (r : registration) :
  NoDup (map email s) -> In r s -> findByEmail (email r) s = Some r.
Proof.
  unfold findByEmail, select_by_email.
  induction s as [| x rest IH]; intros Hnd Hin; [destruct Hin |].
  cbn in Hnd. inversion Hnd as [| ? ? Hx Hrest]. subst.
  cbn. destruct Hin as [Hin | Hin].
  - subst x. now rewrite String.eqb_refl.
  - destruct (email x =? email r)%string eqn:Heq.
    + apply String.eqb_eq in Heq. exfalso. apply Hx. rewrite Heq.
      apply in_map. exact Hin.
    + now apply IH.
Qed.

Lemma at_time_now (E : env) : at_time E (NOW E) = E.
Proof. destruct E. reflexivity. Qed.

Lemma delivery_table (E : env) (req : webhook_request)
      (handler : env -> webhook_request -> M unit) (s : store) :
  delivery_effect E req handler ->
  final_table (handler E req) s = s
  \/ exists transactionRef customer customerEmail,
      event_field (body req) "reference" = Some transactionRef
      /\ event_field (body req) "customer" = Some customer
      /\ get_prop customer "email" = Some customerEmail
      /\ final_table (handler E req) s
         = markPaid (NOW E) (prepareValue transactionRef) "paid"
                    (prepareValue customerEmail) s.
Proof.
  intros [Hsame | (ref & c & em & Hr & Hc & He & Hmark)].
  - left. rewrite <- (at_time_now E) at 1. apply Hsame.
  - right. exists ref, c, em. repeat split; try assumption.
    rewrite <- (at_time_now E) at 1. apply Hmark.
Qed.

Lemma sql_eq_other (column : string) (p : sql_param) :
  p <> Some column -> sql_eq column p = false.
Proof.
  destruct p as [t |]; cbn; [| reflexivity].
  intro H. apply String.eqb_neq. congruence.
Qed.

Lemma initialize_keeps_others (s final : store) (b : init_body) (now : nat)
      (r : registration) :
  In r s ->
  (forall e, b_email b = Some e -> email r <> e) ->
  final = s
  \/ (exists e f a, valid_body b e f a /\ not_paid e s /\ final = upsertPending now e f a s) ->
  In r final.
Proof.
  intros Hin Hother [-> | (e & f & a & Hv & _ & ->)]; [exact Hin |].
  apply upsertPending_keeps_others; [exact Hin |].
  apply Hother. apply Hv.
Qed.

Lemma delivery_keeps_others (E : env) (req : webhook_request)
      (handler : env -> webhook_request -> M unit) (s : store) (r : registration) :
  delivery_effect E req handler ->
  In r s ->
  (forall customer customerEmail,
      event_field (body req) "customer" = Some customer ->
      get_prop customer "email" = Some customerEmail ->
      prepareValue customerEmail <> Some (email r)) ->
  In r (final_table (handler E req) s).
Proof.
  intros Hd Hin Hother.
  destruct (delivery_table E req handler s Hd) as [-> | (ref & c & em & _ & Hc & He & ->)];
    [exact Hin |].
  apply markPaid_keeps_others; [exact Hin |].
  apply sql_eq_other. now apply (Hother c em).
Qed.

(** X7. A request touches the rows of its own email only.  A row whose
    email is not the one submitted is in the table, unchanged, after
    either initialization handler; a row whose email is not the one the
    event's customer carries is in the table, unchanged, after either
    webhook handler. *)
Theorem X7_rows_of_other_emails_untouched :
  forall (E : env) (ireq : init_request) (wreq : webhook_request) (s : store)
         (r : registration),
    In r s ->
    ((forall e, b_email (i_body ireq) = Some e -> email r <> e) ->
     In r (final_table (api_initialize_payment E ireq) s)
     /\ In r (final_table (app_initialize_payment E ireq) s))
    /\ ((forall customer customerEmail,
            event_field (body wreq) "customer" = Some customer ->
            get_prop customer "email" = Some customerEmail ->
            prepareValue customerEmail <> Some (email r)) ->
        In r (final_table (api_paystack_webhook E wreq) s)
        /\ In r (final_table (app_paystack_webhook E wreq) s)).
Proof.
  intros E ireq wreq s r Hin. split.
  - intro Hother. split.
    + apply (initialize_keeps_others s _ (i_body ireq) (NOW E) r Hin Hother).
      apply api_initialize_payment_table.
    + apply (initialize_keeps_others s _ (i_body ireq) (NOW E) r Hin Hother).
      apply initialize_from_body_table.
  - intro Hother. split.
    + apply delivery_keeps_others; [apply delivery_effect_api | exact Hin | exact Hother].
    + apply delivery_keeps_others; [apply delivery_effect_app | exact Hin | exact Hother].
Qed.

Lemma X7_rows_of_other_emails_untouched_witness :
  In Scenario.pending_row
     (final_table (app_initialize_payment Deployment.reachable Deployment.submit_other)
                  [Scenario.pending_row])
  /\ In Scenario.pending_row
        (final_table (api_paystack_webhook (Scenario.provider "ref2" 100)
                        (Scenario.signed Deployment.charge_other))
                     [Scenario.pending_row]).
Proof.
  destruct (X7_rows_of_other_emails_untouched
              Deployment.reachable Deployment.submit_other
              (Scenario.signed Deployment.charge_other) [Scenario.pending_row]
              Scenario.pending_row (or_introl eq_refl)) as [Hinit _].
  destruct (X7_rows_of_other_emails_untouched
              (Scenario.provider "ref2" 100) Deployment.submit_other
              (Scenario.signed Deployment.charge_other) [Scenario.pending_row]
              Scenario.pending_row (or_introl eq_refl)) as [_ Hhook].
  split.
  - refine (proj2 (Hinit _)). intros e He. cbn in He. inversion He. discriminate.
  - refine (proj1 (Hhook _)). intros customer em Hc Hem. cbn in Hc. inversion Hc.
    subst customer. cbn in Hem. inversion Hem. subst em. discriminate.
Defined.

Lemma initialize_keeps_unique (s final : store) (b : init_body) (now : nat) :
  NoDup (map email s) ->
  final = s
  \/ (exists e f a, valid_body b e f a /\ not_paid e s /\ final = upsertPending now e f a s) ->
  NoDup (map email final).
Proof.
  intros Hnd [-> | (e & f & a & _ & _ & ->)]; [exact Hnd |].
  now apply upsertPending_unique.
Qed.

Lemma delivery_keeps_emails (E : env) (req : webhook_request)
      (handler : env -> webhook_request -> M unit) (s : store) :
  delivery_effect E req handler ->
  map email (final_table (handler E req) s) = map email s.
Proof.
  intro Hd.
  destruct (delivery_table E req handler s Hd) as [-> | (ref & c & em & _ & _ & _ & ->)];
    [reflexivity | apply markPaid_emails].
Qed.

(** X8. If no two rows of the table have the same email, none do after
    any of the four handlers has run: an INSERT is sent only for an email
    the SELECT did not find, and the UPDATEs keep the emails.  A webhook
    delivery keeps the list of emails as it is. *)
Theorem X8_emails_stay_unique :
  forall (E : env) (ireq : init_request) (wreq : webhook_request) (s : store),
    NoDup (map email s) ->
    NoDup (map email (final_table (api_initialize_payment E ireq) s))
    /\ NoDup (map email (final_table (app_initialize_payment E ireq) s))
    /\ map email (final_table (api_paystack_webhook E wreq) s) = map email s
    /\ map email (final_table (app_paystack_webhook E wreq) s) = map email s.
Proof.
  intros E ireq wreq s Hnd.
  split; [apply (initialize_keeps_unique s _ (i_body ireq) (NOW E) Hnd),
                 api_initialize_payment_table |].
  split; [apply (initialize_keeps_unique s _ (i_body ireq) (NOW E) Hnd),
                 initialize_from_body_table |].
  split; apply delivery_keeps_emails;
    [apply delivery_effect_api | apply delivery_effect_app].
Qed.

Lemma X8_emails_stay_unique_witness :
  NoDup (map email (final_table (app_initialize_payment Deployment.reachable
                                                       Deployment.submit_other)
                                [Scenario.pending_row])).
Proof.
  assert (Hnd : NoDup (map email [Scenario.pending_row])).
  { cbn. constructor; [intros [] | constructor]. }
  exact (proj1 (proj2 (X8_emails_stay_unique
                         Deployment.reachable Deployment.submit_other
                         (Scenario.signed Deployment.charge_other)
                         [Scenario.pending_row] Hnd))).
Defined.

Lemma initialize_keeps_paid (s final : store) (b : init_body) (now : nat)
      (r : registration) :
  NoDup (map email s) ->
  In r s ->
  status r = "paid" ->
  final = s
  \/ (exists e f a, valid_body b e f a /\ not_paid e s /\ final = upsertPending now e f a s) ->
  In r final.
Proof.
  intros Hnd Hin Hp [-> | (e & f & a & _ & Hnp & ->)]; [exact Hin |].
  apply upsertPending_keeps_others; [exact Hin |].
  intro He. subst e. apply (Hnp r); [| exact Hp].
  now apply findByEmail_unique.
Qed.

Lemma markPaid_keeps_paid (now : nat) (p_ref p_email : sql_param) (s : store)
      (r : registration) :
  In r s ->
  status r = "paid" ->
  exists r', In r' (markPaid now p_ref "paid" p_email s)
             /\ email r' = email r /\ status r' = "paid"
             /\ full_name r' = full_name r /\ amount_paid r' = amount_paid r.
Proof.
  intros Hin Hp. unfold markPaid.
  eexists. split.
  - apply in_map_iff. exists r. split; [reflexivity | exact Hin].
  - destruct (sql_eq (email r) p_email); cbn; auto.
Qed.

Lemma delivery_keeps_paid (E : env) (req : webhook_request)
      (handler : env -> webhook_request -> M unit) (s : store) (r : registration) :
  delivery_effect E req handler ->
  In r s ->
  status r = "paid" ->
  exists r', In r' (final_table (handler E req) s)
             /\ email r' = email r /\ status r' = "paid"
             /\ full_name r' = full_name r /\ amount_paid r' = amount_paid r.
Proof.
  intros Hd Hin Hp.
  destruct (delivery_table E req handler s Hd) as [-> | (ref & c & em & _ & _ & _ & ->)].
  - exists r. auto.
  - now apply markPaid_keeps_paid.
Qed.

(** X9. Paid is final.  In a table with unique emails a paid row is still
    there, field for field, after any initialization request, whatever
    its body; after any webhook delivery the email still has a paid row
    with the same name and amount. *)
Theorem X9_paid_registration_stays_paid :
  forall (E : env) (ireq : init_request) (wreq : webhook_request) (s : store)
         (r : registration),
    In r s ->
    status r = "paid" ->
    (NoDup (map email s) ->
     In r (final_table (api_initialize_payment E ireq) s)
     /\ In r (final_table (app_initialize_payment E ireq) s))
    /\ (exists r', In r' (final_table (api_paystack_webhook E wreq) s)
                   /\ email r' = email r /\ status r' = "paid"
                   /\ full_name r' = full_name r /\ amount_paid r' = amount_paid r)
    /\ (exists r', In r' (final_table (app_paystack_webhook E wreq) s)
                   /\ email r' = email r /\ status r' = "paid"
                   /\ full_name r' = full_name r /\ amount_paid r' = amount_paid r).
Proof.
  intros E ireq wreq s r Hin Hp. split; [| split].
  - intro Hnd. split.
    + apply (initialize_keeps_paid s _ (i_body ireq) (NOW E) r Hnd Hin Hp).
      apply api_initialize_payment_table.
    + apply (initialize_keeps_paid s _ (i_body ireq) (NOW E) r Hnd Hin Hp).
      apply initialize_from_body_table.
  - apply delivery_keeps_paid; [apply delivery_effect_api | exact Hin | exact Hp].
  - apply delivery_keeps_paid; [apply delivery_effect_app | exact Hin | exact Hp].
Qed.

Lemma X9_paid_registration_stays_paid_witness :
  In Scenario.paid_row
     (final_table (api_initialize_payment Deployment.reachable (Scenario.submit 60000))
                  [Scenario.paid_row])
  /\ In Scenario.paid_row
        (final_table (app_initialize_payment Deployment.reachable (Scenario.submit 60000))
                     [Scenario.paid_row]).
Proof.
  assert (Hnd : NoDup (map email [Scenario.paid_row])).
  { cbn. constructor; [intros [] | constructor]. }
  destruct (X9_paid_registration_stays_paid
              Deployment.reachable (Scenario.submit 60000)
              (Scenario.signed (Scenario.charge "ref1" 5000000)) [Scenario.paid_row]
              Scenario.paid_row (or_introl eq_refl) eq_refl) as [Hinit _].
  exact (Hinit Hnd).
Defined.

(** ** The webhook handlers, case by case *)

Ltac use_signature Hm Hk Hne Hs Hh :=
  run_handler; rewrite ?Hm, ?Hk; cbn; rewrite ?Hne; cbn;
  rewrite ?Hs, ?Hh; cbn; rewrite ?hmac_sha512_hex_nonempty, ?String.eqb_refl; cbn.

Lemma other_event_ignored_api (E : env) (req : webhook_request) (s : store)
      (key : string) (event_type : value) :
  method req = "POST" ->
  PAYSTACK_SECRET_KEY E = Some key ->
  key <> "" ->
  correctly_signed key req ->
  get_prop (body req) "event" = Some event_type ->
  strict_eq event_type (VStr "charge.success") = false ->
  observable (effects (api_paystack_webhook E req) s)
  = [SignatureChecked true; Respond 200 VNull; EventFiltered false]
  /\ final_table (api_paystack_webhook E req) s = s.
Proof.
  intros Hm Hk Hne (text & Hs & Hh) Hev Hty.
  apply String.eqb_eq in Hm. apply String.eqb_neq in Hne.
  use_signature Hm Hk Hne Hs Hh. rewrite Hev. cbn. rewrite Hty. cbn. auto.
Qed.

Lemma other_event_ignored_app (E : env) (req : webhook_request) (s : store)
      (key : string) (event_type : value) :
  PAYSTACK_SECRET_KEY E = Some key ->
  correctly_signed key req ->
  get_prop (body req) "event" = Some event_type ->
  strict_eq event_type (VStr "charge.success") = false ->
  observable (effects (app_paystack_webhook E req) s)
  = [SignatureChecked true; Respond 200 VNull; EventFiltered false]
  /\ final_table (app_paystack_webhook E req) s = s.
Proof.
  intros Hk (text & Hs & Hh) Hev Hty.
  use_signature Hk Hk Hk Hs Hh. rewrite Hev. cbn. rewrite Hty. cbn. auto.
Qed.

(** X10. A correctly signed event of any type but "charge.success" is
    acknowledged with 200 and dropped: after the filter there is no
    provider call and no database call, and the table is as it was. *)
Theorem X10_other_events_acknowledged_and_ignored :
  forall (E : env) (req : webhook_request) (s : store) (key : string) (event_type : value),
    method req = "POST" ->
    PAYSTACK_SECRET_KEY E = Some key ->
    key <> "" ->
    correctly_signed key req ->
    get_prop (body req) "event" = Some event_type ->
    strict_eq event_type (VStr "charge.success") = false ->
    (observable (effects (api_paystack_webhook E req) s)
     = [SignatureChecked true; Respond 200 VNull; EventFiltered false]
     /\ final_table (api_paystack_webhook E req) s = s)
    /\ (observable (effects (app_paystack_webhook E req) s)
        = [SignatureChecked true; Respond 200 VNull; EventFiltered false]
        /\ final_table (app_paystack_webhook E req) s = s).
Proof.
  intros E req s key event_type Hm Hk Hne Hsig Hev Hty. split.
  - now apply (other_event_ignored_api E req s key event_type).
  - now apply (other_event_ignored_app E req s key event_type).
Qed.

Lemma X10_other_events_acknowledged_and_ignored_witness :
  final_table (api_paystack_webhook (Scenario.provider "ref1" 5000000)
                                    (Scenario.signed Deployment.transfer))
              [Scenario.pending_row] = [Scenario.pending_row]
  /\ final_table (app_paystack_webhook (Scenario.provider "ref1" 5000000)
                                       (Scenario.signed Deployment.transfer))
                 [Scenario.pending_row] = [Scenario.pending_row].
Proof.
  assert (Hsigned : correctly_signed Scenario.key (Scenario.signed Deployment.transfer)).
  { exists (Scenario.text_of Deployment.transfer). split; reflexivity. }
  assert (Hne : Scenario.key <> "") by discriminate.
  destruct (X10_other_events_acknowledged_and_ignored
              (Scenario.provider "ref1" 5000000) (Scenario.signed Deployment.transfer)
              [Scenario.pending_row] Scenario.key (VStr "transfer.success")
              eq_refl eq_refl Hne Hsigned eq_refl eq_refl) as [[_ Hapi] [_ Happ]].
  split; [exact Hapi | exact Happ].
Defined.







(** X12. When the connection or the UPDATE of a webhook delivery fails,
    the table is as it was: the failure is caught and logged after the
    200, in either handler, whatever the request. *)
Theorem X12_webhook_database_failure_changes_nothing :
  forall (E : env) (req : webhook_request) (s : store),
    db_fails E Connect = true \/ db_fails E Update = true ->
    final_table (api_paystack_webhook E req) s = s
    /\ final_table (app_paystack_webhook E req) s = s.
Proof.
  intros E req s Hfail.
  split; run_handler;
    repeat (first [break_negb | break_match]; cbn in * ); try discriminate; inv_pairs; cbn;
    first [reflexivity | destruct Hfail; congruence].
Qed.

Lemma X12_webhook_database_failure_changes_nothing_witness :
  final_table (api_paystack_webhook Deployment.database_down
                                    (Scenario.signed (Scenario.charge "ref1" 5000000)))
              [Scenario.pending_row] = [Scenario.pending_row]
  /\ final_table (app_paystack_webhook Deployment.database_down
                                       (Scenario.signed (Scenario.charge "ref1" 5000000)))
                 [Scenario.pending_row] = [Scenario.pending_row].
Proof.
  apply (X12_webhook_database_failure_changes_nothing
           Deployment.database_down (Scenario.signed (Scenario.charge "ref1" 5000000))
           [Scenario.pending_row]).
  left. reflexivity.
Defined.



(** ** The Express server without its key *)

(** X14. The Express routes do not check that the key is configured.
    Without it the webhook route throws while computing the hash, before
    any response or effect; the initialization route writes the pending
    registration as usual and calls the provider with the Authorization
    header "Bearer undefined". *)
Theorem X14_express_routes_without_key :
  forall (E : env) (ireq : init_request) (wreq : webhook_request) (s : store)
         (e f : string) (a : Z) (data : value),
    PAYSTACK_SECRET_KEY E = None ->
    run (app_paystack_webhook E wreq) s
    = (Throw (TypeError "The key argument must be of type string"), start s)
    /\ (valid_body (i_body ireq) e f a ->
        healthy E ->
        not_paid e s ->
        axios_post E initialize_url (initialize_payload e f a) "Bearer undefined" = Ok data ->
        filter is_http_post (effects (app_initialize_payment E ireq) s)
        = [HttpPost initialize_url (initialize_payload e f a) "Bearer undefined"]
        /\ final_table (app_initialize_payment E ireq) s = upsertPending (NOW E) e f a s).
Proof.
  intros E ireq wreq s e f a data Hk. split.
  - unfold run, app_paystack_webhook, bind, throw. rewrite Hk. reflexivity.
  - intros Hv Hh Hnp Hg.
    assert (Hauth : bearer (env_key_text E) = "Bearer undefined")
      by (unfold env_key_text; now rewrite Hk).
    unfold app_initialize_payment. rewrite Hauth.
    destruct (initialize_commits_then_calls E "Bearer undefined" (i_body ireq) s e f a data
                Hv Hh Hnp Hg) as (_ & Hp & _ & Htab).
    split; [exact Hp | exact Htab].
Qed.

Lemma X14_express_routes_without_key_witness :
  fst (run (app_paystack_webhook Deployment.keyless
                                 (Scenario.signed (Scenario.charge "ref1" 5000000)))
           [Scenario.pending_row])
  = Throw (TypeError "The key argument must be of type string")
  /\ final_table (app_initialize_payment Deployment.keyless (Scenario.submit 60000))
                 [Scenario.pending_row]
     = upsertPending 7 "a@x.com" "A" 60000 [Scenario.pending_row].
Proof.
  assert (Hv : valid_body (i_body (Scenario.submit 60000)) "a@x.com" "A" 60000).
  { unfold valid_body. cbn. repeat split; try reflexivity; discriminate. }
  assert (Hh : healthy Deployment.keyless) by (intro op; reflexivity).
  assert (Hnp : not_paid "a@x.com" [Scenario.pending_row]).
  { intros r Hr. cbn in Hr. inversion Hr. discriminate. }
  destruct (X14_express_routes_without_key
              Deployment.keyless (Scenario.submit 60000)
              (Scenario.signed (Scenario.charge "ref1" 5000000)) [Scenario.pending_row]
              "a@x.com" "A" 60000 Deployment.initialized eq_refl) as [Hhook Hinit].
  split.
  - now rewrite Hhook.
  - exact (proj2 (Hinit Hv Hh Hnp eq_refl)).
Defined.

(** ** The signature check and the store statements *)

(** X16. For a body that can be serialized, verifyPaystackWebhookSignature
    returns true exactly when the x-paystack-signature header is the
    hexadecimal HMAC-SHA512, under the key, of JSON.stringify(req.body);
    with the header absent, empty or different it returns false.  It
    changes no table. *)
Theorem X16_signature_accepted_iff_header_is_hmac_of_serialized_body :
  forall (req : webhook_request) (secretKey text : string) (w : world),
    JSON_stringify (body req) = Some text ->
    (fst (verifyPaystackWebhookSignature req secretKey w) = Ok true
     <-> header "x-paystack-signature" (headers req)
         = Some (hmac_sha512_hex secretKey text))
    /\ (header "x-paystack-signature" (headers req)
        <> Some (hmac_sha512_hex secretKey text) ->
        fst (verifyPaystackWebhookSignature req secretKey w) = Ok false)
    /\ table (snd (verifyPaystackWebhookSignature req secretKey w)) = table w.
Proof.
  intros req secretKey text w Hs.
  assert (Htab : table (snd (verifyPaystackWebhookSignature req secretKey w)) = table w).
  { unfold verifyPaystackWebhookSignature, missing_string, bind, log, emit, ret, throw.
    rewrite Hs. repeat (break_match; cbn); reflexivity. }
  rewrite verifyPaystackWebhookSignature_checks_stringified_body, Hs.
  destruct (header "x-paystack-signature" (headers req)) as [sig |].
  - destruct (sig =? "")%string eqn:Hempty.
    + apply String.eqb_eq in Hempty. subst sig.
      pose proof (hmac_sha512_hex_nonempty secretKey text) as Hne.
      apply String.eqb_neq in Hne.
      split; [split; [discriminate | intro H; inversion H; congruence] |].
      split; [reflexivity | exact Htab].
    + destruct (hmac_sha512_hex secretKey text =? sig)%string eqn:Heq.
      * apply String.eqb_eq in Heq. subst sig.
        split; [split; reflexivity |]. split; [congruence | exact Htab].
      * apply String.eqb_neq in Heq.
        split; [split; [discriminate | intro H; inversion H; congruence] |].
        split; [reflexivity | exact Htab].
  - split; [split; discriminate |]. split; [reflexivity | exact Htab].
Qed.

Lemma X16_signature_accepted_iff_header_is_hmac_of_serialized_body_witness :
  fst (verifyPaystackWebhookSignature (Scenario.signed (Scenario.charge "ref1" 5000000))
                                      Scenario.key (start []))
  = Ok true.
Proof.
  apply (proj1 (X16_signature_accepted_iff_header_is_hmac_of_serialized_body
                  (Scenario.signed (Scenario.charge "ref1" 5000000)) Scenario.key
                  (Scenario.text_of (Scenario.charge "ref1" 5000000)) (start [])
                  eq_refl)).
  reflexivity.
Defined.

Lemma findByEmail_in (e : string) (s : store) (r : registration) :
  findByEmail e s = Some r -> In r s /\ email r = e.
Proof.
  unfold findByEmail, select_by_email. intro H.
  assert (Hin : In r (filter (fun r0 => sql_eq (email r0) (Some e)) s)).
  { destruct (filter _ s) as [| x rest]; [discriminate H |].
    cbn in H. inversion H. now left. }
  apply filter_In in Hin. destruct Hin as [Hin He].
  split; [exact Hin |]. now apply String.eqb_eq.
Qed.

Lemma findByEmail_some (e : string) (s : store) (r : registration) :
  In r s -> email r = e -> exists r', findByEmail e s = Some r'.
Proof.
  unfold findByEmail, select_by_email. intros Hin He.
  assert (Hf : In r (filter (fun r0 => sql_eq (email r0) (Some e)) s)).
  { apply filter_In. split; [exact Hin |]. cbn. now apply String.eqb_eq. }
  destruct (filter _ s) as [| x rest]; [destruct Hf |].
  now exists x.
Qed.

(** X15. Looking an email up after its registration was written finds a
    pending row with the submitted name and amount: for a new email the
    inserted row, with the cohort of the deployment, no payment reference
    and both timestamps now; for an email already there, one of its rows
    as the UPDATE left it. *)
Theorem X15_lookup_after_upsert_finds_pending :
  forall (now : nat) (e f : string) (a : Z) (s : store),
    (exists r, findByEmail e (upsertPending now e f a s) = Some r
               /\ pending_with e f a r)
    /\ (findByEmail e s = None ->
        findByEmail e (upsertPending now e f a s)
        = Some (mkRegistration e f a COHORT "pending" None now now)).
Proof.
  intros now e f a s. split.
  - destruct (upsertPending_rows now e f a s) as (Hall & r & Hin & Hp).
    destruct (findByEmail_some e _ r Hin (proj1 Hp)) as (r' & Hr').
    exists r'. split; [exact Hr' |].
    apply findByEmail_in in Hr'. destruct Hr' as [Hin' He'].
    now apply Hall.
  - unfold findByEmail, upsertPending. intro Hnone.
    destruct (select_by_email (Some e) s) as [| x rest] eqn:Hsel; [| discriminate Hnone].
    unfold insert_registration, select_by_email in *.
    rewrite filter_app, Hsel. cbn. now rewrite String.eqb_refl.
Qed.

Lemma X15_lookup_after_upsert_finds_pending_witness :
  findByEmail "b@x.com" (upsertPending 7 "b@x.com" "B" 100 [Scenario.pending_row])
  = Some (mkRegistration "b@x.com" "B" 100 COHORT "pending" None 7 7).
Proof.
  apply (proj2 (X15_lookup_after_upsert_finds_pending 7 "b@x.com" "B" 100
                  [Scenario.pending_row])).
  reflexivity.
Defined.

(** ** How the statements compose *)

Lemma markPaid_last_wins (t1 t2 : nat) (ref1 ref2 : sql_param) (st1 st2 : string)
      (p_email : sql_param) (s : store) :
  markPaid t2 ref2 st2 p_email (markPaid t1 ref1 st1 p_email s)
  = markPaid t2 ref2 st2 p_email s.
Proof.
  unfold markPaid. rewrite map_map. apply map_ext. intro r.
  destruct (sql_eq (email r) p_email) eqn:Heq; cbn; rewrite Heq; reflexivity.
Qed.

Lemma upsertPending_has_row (now : nat) (e f : string) (a : Z) (s : store) :
  select_by_email (Some e) (upsertPending now e f a s) <> [].
Proof.
  destruct (upsertPending_rows now e f a s) as (_ & r & Hin & He & _).
  intro Hnil. now apply (select_nil_no_row e _ r Hnil Hin).
Qed.

(** X17. A second submission for an email updates its registration in
    place: the table has the same emails in the same places as after the
    first, and the rows of the email carry the name and the amount of the
    second.  A second markPaid for an email replaces what the first
    wrote: the reference and the time are those of the last delivery. *)
Theorem X17_later_write_replaces_earlier :
  forall (t1 t2 : nat) (e f1 f2 : string) (a1 a2 : Z) (ref1 ref2 : sql_param)
         (p_email : sql_param) (s : store),
    map email (upsertPending t2 e f2 a2 (upsertPending t1 e f1 a1 s))
    = map email (upsertPending t1 e f1 a1 s)
    /\ (forall r, In r (upsertPending t2 e f2 a2 (upsertPending t1 e f1 a1 s)) ->
                  email r = e -> pending_with e f2 a2 r)
    /\ markPaid t2 ref2 "paid" p_email (markPaid t1 ref1 "paid" p_email s)
       = markPaid t2 ref2 "paid" p_email s.
Proof.
  intros t1 t2 e f1 f2 a1 a2 ref1 ref2 p_email s.
  split; [| split].
  - unfold upsertPending at 1.
    pose proof (upsertPending_has_row t1 e f1 a1 s) as Hrow.
    destruct (select_by_email (Some e) (upsertPending t1 e f1 a1 s)); [now elim Hrow |].
    apply update_registration_emails.
  - apply upsertPending_rows.
  - apply markPaid_last_wins.
Qed.

(** X18. The life of a registration.  After the initialization wrote the
    pending row and a delivery marked it paid, the rows of the email are
    paid with the delivery's reference and still carry the submitted name
    and amount; from then on a valid initialization request for that email
    leaves the table as it is. *)
Theorem X18_registered_then_paid_then_refused :
  forall (E : env) (req : init_request) (t1 t2 : nat)
         (e f f' : string) (a a' : Z) (reference : string) (s : store),
    let paid := markPaid t2 (Some reference) "paid" (Some e) (upsertPending t1 e f a s) in
    (forall r, In r paid -> email r = e ->
               status r = "paid" /\ payment_ref r = Some reference
               /\ full_name r = f /\ amount_paid r = a)
    /\ (exists r, findByEmail e paid = Some r /\ status r = "paid")
    /\ (valid_body (i_body req) e f' a' ->
        final_table (app_initialize_payment E req) paid = paid
        /\ final_table (api_initialize_payment E req) paid = paid).
Proof.
  intros E req t1 t2 e f f' a a' reference s paid.
  destruct (upsertPending_rows t1 e f a s) as (Hall & r0 & Hin0 & Hp0).
  assert (Hrows : forall r, In r paid -> email r = e ->
                            status r = "paid" /\ payment_ref r = Some reference
                            /\ full_name r = f /\ amount_paid r = a).
  { intros r Hin He. unfold paid, markPaid in Hin. apply in_map_iff in Hin.
    destruct Hin as (r1 & Hr1 & Hin1).
    cbn in Hr1. destruct (email r1 =? e)%string eqn:Heq.
    - apply String.eqb_eq in Heq.
      destruct (Hall r1 Hin1 Heq) as (_ & _ & Hf & Ha).
      subst r. cbn. auto.
    - subst r1. apply String.eqb_neq in Heq. contradiction. }
  assert (Hfound : exists r, findByEmail e paid = Some r /\ status r = "paid").
  { assert (Hin : exists r, In r paid /\ email r = e).
    { eexists. split.
      - unfold paid, markPaid. apply in_map_iff. exists r0. split; [reflexivity | exact Hin0].
      - destruct Hp0 as (He0 & _). cbn. now destruct (email r0 =? e)%string. }
    destruct Hin as (r & Hin & He).
    destruct (findByEmail_some e paid r Hin He) as (r' & Hr').
    exists r'. split; [exact Hr' |].
    apply findByEmail_in in Hr'. destruct Hr' as [Hin' He'].
    now apply Hrows. }
  split; [exact Hrows |]. split; [exact Hfound |].
  intro Hv. destruct Hfound as (r & Hr & Hp). split.
  - exact (proj1 (refuses_paid_from_body E (bearer (env_key_text E)) (i_body req) paid
                    e f' a' r Hv Hr Hp)).
  - destruct (api_initialize_payment_table E req paid) as [Hsame | (e2 & f2 & a2 & Hv2 & Hnp2 & _)];
      [exact Hsame |].
    exfalso.
    assert (He2 : e2 = e).
    { destruct Hv as (He & _). destruct Hv2 as (He2 & _). congruence. }
    subst e2. now apply (Hnp2 r).
Qed.

Lemma X18_registered_then_paid_then_refused_witness :
  final_table (app_initialize_payment Deployment.reachable (Scenario.submit 60000))
              (markPaid 9 (Some "ref1") "paid" (Some "a@x.com")
                        (upsertPending 7 "a@x.com" "A" 50000 []))
  = markPaid 9 (Some "ref1") "paid" (Some "a@x.com") (upsertPending 7 "a@x.com" "A" 50000 []).
Proof.
  assert (Hv : valid_body (i_body (Scenario.submit 60000)) "a@x.com" "A" 60000).
  { unfold valid_body. cbn. repeat split; try reflexivity; discriminate. }
  exact (proj1 (proj2 (proj2 (X18_registered_then_paid_then_refused
                                Deployment.reachable (Scenario.submit 60000)
                                7 9 "a@x.com" "A" "A" 50000 60000 "ref1" [])) Hv)).
Defined.

(** X19. verifyPaystackTransaction makes one call, a GET of
    https://api.paystack.co/transaction/verify/ followed by the reference,
    with the Authorization header Bearer and the key; besides that it only
    logs.  It touches neither the table nor the client, and its result is
    the comparison of the provider's answer with the expected amount and
    the reference. *)
Theorem X19_verification_is_one_read_only_call :
  forall (E : env) (reference : string) (paidAmountKobo : value) (secretKey : string)
         (w : world),
    exists logs,
      verifyPaystackTransaction E (VStr reference) paidAmountKobo secretKey w
      = (Ok (verification E ("Bearer " ++ secretKey) (VStr reference) paidAmountKobo),
         mkWorld (table w) (tx w) (client w)
                 (trace w ++ HttpGet ("https://api.paystack.co/transaction/verify/" ++ reference)
                                     ("Bearer " ++ secretKey) :: logs)%list)
      /\ forallb (fun ev => match ev with Log _ _ => true | _ => false end) logs = true.
Proof.
  intros E reference paidAmountKobo secretKey w.
  exact (verifyPaystackTransaction_result E (VStr reference) paidAmountKobo secretKey w).
Qed.
